(** * Clearance stock update: the transform of [update_clearance.py]

    A shallow embedding of [src/update_clearance.py] (category
    normalisation, numeric coercion, the row classifier and the driver
    [main]) and the properties of its specification.

    Modelling conventions.
    - A Python [str] is a [string]; a character is a code point in the
      range 0..255, on which [isspace], [lower] and the decimal digits are
      given exactly as the interpreter has them.  Code points above 255 are
      outside the development.
    - Python's [int] is [Z].  The interpreter's optional cap on the number
      of digits converted between [str] and [int] is taken as switched off.
    - [csv.reader] over a [StringIO] is the state machine of the [csv]
      module with the default dialect, fed the lines of the text; it is the
      one place of [parse_clearance_csv] that can raise.
    - An exception is a value of [Exn]; code that can raise, print or write
      runs in the monad [M] over the [World] (network, clock, standard
      output, the files written). *)

From Stdlib Require Import ZArith NArith List Bool Ascii String Lia.
Import ListNotations.

Local Open Scope string_scope.
Local Open Scope list_scope.
Local Open Scope Z_scope.

(** ** Characters and the [str] methods the script uses *)

Module Py.

Definition ord (c : ascii) : N := N_of_ascii c.

(** [str.isspace] on one character, which is also what [str.strip] removes
    and what the pattern [\s] matches. *)
Definition isspace (c : ascii) : bool :=
  let n := ord c in
  (((9 <=? n) && (n <=? 13)) || ((28 <=? n) && (n <=? 32))
   || (n =? 133) || (n =? 160))%N.

(** [str.lower] on one character: A-Z and the upper-case letters of the
    range 192..222 (215, the multiplication sign, is not a letter). *)
Definition lower_char (c : ascii) : ascii :=
  let n := ord c in
  if (((65 <=? n) && (n <=? 90))
      || ((192 <=? n) && (n <=? 222) && negb (n =? 215)))%N
  then ascii_of_N (n + 32) else c.

Fixpoint lower (s : string) : string :=
  match s with
  | EmptyString => EmptyString
  | String c s' => String (lower_char c) (lower s')
  end.

Fixpoint lstrip (s : string) : string :=
  match s with
  | EmptyString => EmptyString
  | String c s' => if isspace c then lstrip s' else s
  end.

Fixpoint rstrip (s : string) : string :=
  match s with
  | EmptyString => EmptyString
  | String c s' =>
      match rstrip s' with
      | EmptyString => if isspace c then EmptyString else String c EmptyString
      | r => String c r
      end
  end.

(** [s.strip()] *)
Definition strip (s : string) : string := rstrip (lstrip s).

(** [s.replace(a, b)] for single characters [a] and [b]. *)
Fixpoint replace_char (a b : ascii) (s : string) : string :=
  match s with
  | EmptyString => EmptyString
  | String c s' =>
      String (if Ascii.eqb c a then b else c) (replace_char a b s')
  end.

(** [s.startswith(p)] *)
Fixpoint startswith (p s : string) : bool :=
  match p, s with
  | EmptyString, _ => true
  | String _ _, EmptyString => false
  | String a p', String b s' => Ascii.eqb a b && startswith p' s'
  end.

(** [sub in s] *)
Fixpoint contains (sub s : string) : bool :=
  if startswith sub s then true
  else match s with
       | EmptyString => false
       | String _ s' => contains sub s'
       end.

(** Truth value of a [str]: non-empty. *)
Definition truthy (s : string) : bool :=
  match s with EmptyString => false | String _ _ => true end.

End Py.

(** ** Category normalisation *)

(** [CATEGORY_MAP]: a dict literal; iteration follows insertion order, so it
    is the list of its items as declared. *)
Definition CATEGORY_MAP : list (string * string) :=
  [ ("Area Light", "Area Light");
    ("AL2", "Area Light");
    ("AL2N", "Area Light");
    ("Twin Lens High Bay", "Linear High Bay");
    ("Limited Stock - Linear High Bay", "Linear High Bay");
    ("Limited Stock - High Bay - Linear Fixtures", "Linear High Bay");
    ("High Bay - Round Limited Stock", "Round High Bay");
    ("HBU3 Accessories", "Round High Bay");
    ("PT-WAA Series -", "Wraparound");
    ("Limited Stock Strip Light", "Strip Light");
    ("LSFA", "Strip Light");
    ("Accessories", "Accessories");
    ("Limited Stock - Vapor Tight", "Vaportight") ].

(** The [for key, value in items: if ...: return value] loop of
    [map_category], over any list of items; [raw_category] is returned when
    the loop ends. *)
Fixpoint map_category_loop (items : list (string * string))
    (raw_category : string) : string :=
  match items with
  | [] => raw_category
  | (key, value) :: items' =>
      if Py.contains (Py.lower key) (Py.lower raw_category) then value
      else map_category_loop items' raw_category
  end.

Definition map_category (raw_category : string) : string :=
  map_category_loop CATEGORY_MAP raw_category.

(** ** Numeric coercion *)

Module PyInt.

Definition is_digit (c : ascii) : bool :=
  ((48 <=? Py.ord c) && (Py.ord c <=? 57))%N.

Definition digit_value (c : ascii) : Z := Z.of_N (Py.ord c) - 48.

Definition underscore : ascii := "_"%char.

(** The digits of an [int] literal: decimal digits, where a single
    underscore may sit between two digits.  [prev_digit] tells whether the
    previous character was a digit; [acc] is the value read so far. *)
Fixpoint int_digits (s : string) (prev_digit : bool) (acc : Z) : option Z :=
  match s with
  | EmptyString => if prev_digit then Some acc else None
  | String c s' =>
      if is_digit c then int_digits s' true (10 * acc + digit_value c)
      else if Ascii.eqb c underscore && prev_digit then int_digits s' false acc
      else None
  end.

(** [int(s)] for a [str] without whitespace: an optional sign, then the
    digits; [None] stands for [ValueError].  ([int] also accepts whitespace
    around the literal; [parse_int] removes every whitespace character
    before the call, so none is left for it.) *)
Definition int_of_str (s : string) : option Z :=
  match s with
  | EmptyString => None
  | String c s' =>
      if Ascii.eqb c "+"%char then int_digits s' false 0
      else if Ascii.eqb c "-"%char
      then option_map Z.opp (int_digits s' false 0)
      else int_digits s false 0
  end.

Definition digit_char (d : Z) : ascii := ascii_of_N (Z.to_N d + 48).

(** The decimal digits of a non-negative [n], most significant first, put
    in front of [acc]; [fuel] bounds the number of digits. *)
Fixpoint str_digits (fuel : nat) (n : Z) (acc : string) : string :=
  match fuel with
  | O => acc
  | S fuel' =>
      let acc' := String (digit_char (n mod 10)) acc in
      if n <? 10 then acc' else str_digits fuel' (n / 10) acc'
  end.

Definition digits_fuel (n : Z) : nat := S (Z.to_nat (Z.log2 n)).

(** [str(n)] for an [int]. *)
Definition str_of_int (n : Z) : string :=
  if n <? 0 then String "-" (str_digits (digits_fuel (- n)) (- n) EmptyString)
  else str_digits (digits_fuel n) n EmptyString.

End PyInt.

(** [re.sub(r'[,\s]', '', value)] *)
Fixpoint strip_commas_spaces (value : string) : string :=
  match value with
  | EmptyString => EmptyString
  | String c s' =>
      if Ascii.eqb c ","%char || Py.isspace c then strip_commas_spaces s'
      else String c (strip_commas_spaces s')
  end.

Definition parse_int (value : string) : Z :=
  if negb (Py.truthy value) then 0
  else
    let cleaned := strip_commas_spaces value in
    match PyInt.int_of_str cleaned with
    | Some n => n
    | None => 0
    end.

(** ** Exceptions, the world and the monad of effectful code *)

Inductive Exn : Type :=
| CsvError (msg : string)
| IndexError.

Inductive Result (A : Type) : Type :=
| Ok (a : A)
| Raise (e : Exn).
Arguments Ok {A} a.
Arguments Raise {A} e.

Definition rbind {A B : Type} (r : Result A) (k : A -> Result B) : Result B :=
  match r with
  | Ok a => k a
  | Raise e => Raise e
  end.

Notation "x <~ r ;; k" := (rbind r (fun x => k))
  (at level 61, r at next level, right associativity).

(** ** The CSV reader

    [csv.reader(StringIO(csv_content))] with the default dialect: delimiter
    [,], quote character code 34, doubled quotes inside quoted fields, no
    escape character, not strict.  The reader is fed the lines of the
    [StringIO], which end at each line feed and keep it. *)

Module Csv.

Definition LF : ascii := "010"%char.
Definition CR : ascii := "013"%char.
Definition delimiter : ascii := ","%char.
Definition quotechar : ascii := "034"%char.
Definition field_limit : N := 131072.

(** The parser states that the default dialect can reach (those of the
    escape character are left out). *)
Inductive ParserState : Type :=
| START_RECORD | START_FIELD | IN_FIELD
| IN_QUOTED_FIELD | QUOTE_IN_QUOTED_FIELD | EAT_CRNL.

Record Reader : Type := mkReader {
  state : ParserState;
  fields : list string;
  field : string
}.

Definition set_state (s : ParserState) (rd : Reader) : Reader :=
  mkReader s (fields rd) (field rd).

Definition parse_reset : Reader := mkReader START_RECORD [] EmptyString.

Definition parse_save_field (rd : Reader) : Reader :=
  mkReader (state rd) (fields rd ++ [field rd]) EmptyString.

Definition parse_add_char (rd : Reader) (c : ascii) : Result Reader :=
  if (field_limit <=? N.of_nat (String.length (field rd)))%N
  then Raise (CsvError "field larger than field limit (131072)")
  else Ok (mkReader (state rd) (fields rd) (field rd ++ String c EmptyString)).

Definition is_newline (c : ascii) : bool := Ascii.eqb c LF || Ascii.eqb c CR.

(** The case [START_FIELD] of the parser; [None] is the end of a line. *)
Definition start_field (rd : Reader) (c : option ascii) : Result Reader :=
  match c with
  | None => Ok (set_state START_RECORD (parse_save_field rd))
  | Some ch =>
      if is_newline ch then Ok (set_state EAT_CRNL (parse_save_field rd))
      else if Ascii.eqb ch quotechar then Ok (set_state IN_QUOTED_FIELD rd)
      else if Ascii.eqb ch delimiter then Ok (parse_save_field rd)
      else rbind (parse_add_char rd ch) (fun rd' => Ok (set_state IN_FIELD rd'))
  end.

Definition parse_process_char (rd : Reader) (c : option ascii)
    : Result Reader :=
  match state rd with
  | START_RECORD =>
      match c with
      | None => Ok rd
      | Some ch =>
          if is_newline ch then Ok (set_state EAT_CRNL rd)
          else start_field (set_state START_FIELD rd) c
      end
  | START_FIELD => start_field rd c
  | IN_FIELD =>
      match c with
      | None => Ok (set_state START_RECORD (parse_save_field rd))
      | Some ch =>
          if is_newline ch then Ok (set_state EAT_CRNL (parse_save_field rd))
          else if Ascii.eqb ch delimiter
          then Ok (set_state START_FIELD (parse_save_field rd))
          else parse_add_char rd ch
      end
  | IN_QUOTED_FIELD =>
      match c with
      | None => Ok rd
      | Some ch =>
          if Ascii.eqb ch quotechar then Ok (set_state QUOTE_IN_QUOTED_FIELD rd)
          else parse_add_char rd ch
      end
  | QUOTE_IN_QUOTED_FIELD =>
      match c with
      | None => Ok (set_state START_RECORD (parse_save_field rd))
      | Some ch =>
          if Ascii.eqb ch quotechar
          then rbind (parse_add_char rd ch)
                 (fun rd' => Ok (set_state IN_QUOTED_FIELD rd'))
          else if Ascii.eqb ch delimiter
          then Ok (set_state START_FIELD (parse_save_field rd))
          else if is_newline ch
          then Ok (set_state EAT_CRNL (parse_save_field rd))
          else rbind (parse_add_char rd ch)
                 (fun rd' => Ok (set_state IN_FIELD rd'))
      end
  | EAT_CRNL =>
      match c with
      | None => Ok (set_state START_RECORD rd)
      | Some ch =>
          if is_newline ch then Ok rd
          else Raise (CsvError "new-line character seen in unquoted field")
      end
  end.

(** The lines a [StringIO] yields: each ends with its line feed, the last
    one may lack it. *)
Fixpoint readlines (s : string) : list string :=
  match s with
  | EmptyString => []
  | String c s' =>
      if Ascii.eqb c LF then String c EmptyString :: readlines s'
      else match readlines s' with
           | [] => [String c EmptyString]
           | l :: ls => String c l :: ls
           end
  end.

(** One line through the parser, character by character, then the end of
    the line. *)
Fixpoint process_line (line : string) (rd : Reader) : Result Reader :=
  match line with
  | EmptyString => parse_process_char rd None
  | String c line' =>
      rbind (parse_process_char rd (Some c)) (process_line line')
  end.

Definition is_start_record (s : ParserState) : bool :=
  match s with START_RECORD => true | _ => false end.

Definition is_in_quoted_field (s : ParserState) : bool :=
  match s with IN_QUOTED_FIELD => true | _ => false end.

(** [list(reader)]: the reader takes lines until the parser is back at the
    start of a record, and yields the fields; when the lines run out inside
    a record, the pending field is saved and the record is yielded. *)
Fixpoint read_rows (lines : list string) (rd : Reader)
    (rows : list (list string)) : Result (list (list string)) :=
  match lines with
  | [] =>
      if Py.truthy (field rd) || is_in_quoted_field (state rd)
      then Ok (rows ++ [fields (parse_save_field rd)])
      else Ok rows
  | line :: lines' =>
      rbind (process_line line rd) (fun rd' =>
        if is_start_record (state rd')
        then read_rows lines' parse_reset (rows ++ [fields rd'])
        else read_rows lines' rd' rows)
  end.

Definition reader (csv_content : string) : Result (list (list string)) :=
  read_rows (readlines csv_content) parse_reset [].

End Csv.

(** ** The world of a run *)

(** A reading of the clock, as the two renderings the script takes of it:
    [isoformat()] and [strftime('%B %d, %Y')]. *)
Record Instant : Type := mkInstant {
  isoformat : string;
  long_date : string
}.

Record Product : Type := mkProduct {
  sku : string;
  description : string;
  wattage : string;
  category : string;
  subcategory : string;
  ontario : Z;
  louisville : Z;
  phoenix : Z;
  dallas : Z;
  chicago : Z;
  total : Z;
  notes : string;
  spec_url : string
}.

(** The document [all_data] that [json.dump] writes: the two time stamps
    and the one tab [clearance] with its name, products and count. *)
Record Document : Type := mkDocument {
  updated_at : string;
  updated_at_pacific : string;
  clearance_name : string;
  clearance_products : list Product;
  clearance_count : Z
}.

Record World : Type := mkWorld {
  (** what [urlopen(url).read().decode()] gives: the text, or the message of
      the exception it raises *)
  urlopen : string -> string + string;
  (** successive readings of [datetime.now] *)
  clock : nat -> Instant;
  ticks : nat;
  (** lines printed so far *)
  stdout : list string;
  (** files written, by path *)
  files : string -> option Document
}.

Definition M (A : Type) : Type := World -> Result A * World.

Definition ret {A : Type} (a : A) : M A := fun w => (Ok a, w).

Definition bind {A B : Type} (m : M A) (k : A -> M B) : M B :=
  fun w =>
    match m w with
    | (Ok a, w') => k a w'
    | (Raise e, w') => (Raise e, w')
    end.

Definition lift {A : Type} (r : Result A) : M A := fun w => (r, w).

Declare Scope monad_scope.
Delimit Scope monad_scope with monad.
Notation "x <- m ;; k" := (bind m (fun x => k))
  (at level 61, m at next level, right associativity) : monad_scope.
Notation "m ;;; k" := (bind m (fun _ => k))
  (at level 61, right associativity) : monad_scope.
Local Open Scope monad_scope.

Definition print (line : string) : M unit :=
  fun w => (Ok tt, mkWorld (urlopen w) (clock w) (ticks w)
                     (stdout w ++ [line]) (files w)).

(** [datetime.now(timezone.utc)] *)
Definition now : M Instant :=
  fun w => (Ok (clock w (ticks w)),
            mkWorld (urlopen w) (clock w) (S (ticks w)) (stdout w) (files w)).

(** [with open(path, 'w') as f: json.dump(doc, f, indent=2)] *)
Definition write_json (path : string) (doc : Document) : M unit :=
  fun w => (Ok tt, mkWorld (urlopen w) (clock w) (ticks w) (stdout w)
                     (fun p => if String.eqb p path then Some doc
                               else files w p)).

(** ** The script *)

Definition SHEET_ID : string := "1XwA4sOwRhb6z9jZ7XyEYUFFM04R0AzWBxKo0d4hJjMM".
Definition GID : string := "0".

(** The f-string of the export URL. *)
Definition export_url (sheet_id gid : string) : string :=
  ("https://docs.google.com/spreadsheets/d/" ++ sheet_id
   ++ "/export?format=csv&gid=" ++ gid)%string.

Definition fetch_sheet_csv (sheet_id gid : string) : M (option string) :=
  let url := export_url sheet_id gid in
  fun w =>
    match urlopen w url with
    | inl text => ret (Some text) w
    | inr e =>
        (print ("Error fetching sheet (gid=" ++ gid ++ "): " ++ e)%string ;;;
         ret None) w
    end.

(** [row[i]]: [IndexError] when [i] is not below [len(row)]. *)
Definition item (row : list string) (i : nat) : Result string :=
  match nth_error row i with
  | Some c => Ok c
  | None => Raise IndexError
  end.

(** The test of the header search:
    [len(row) > 1 and ("Item# / SKU" in str(row[1]) or "Item#" in str(row[1]))]. *)
Definition header_test (row : list string) : Result bool :=
  if (1 <? List.length row)%nat then
    c <~ item row 1 ;;
    if Py.contains "Item# / SKU" c then Ok true
    else c' <~ item row 1 ;; Ok (Py.contains "Item#" c')
  else Ok false.

(** [for i, row in enumerate(rows): if ...: header_row_idx = i; break],
    counting from [i]; [None] when the loop ends without a match. *)
Fixpoint find_header_row (rows : list (list string)) (i : nat)
    : Result (option nat) :=
  match rows with
  | [] => Ok None
  | row :: rows' =>
      found <~ header_test row ;;
      if found then Ok (Some i) else find_header_row rows' (S i)
  end.

(** The local variables the row loop updates. *)
Record LoopState : Type := mkLoop {
  products : list Product;
  current_category : string;
  current_subcategory : string
}.

Definition LF_to_space (s : string) : string :=
  Py.replace_char Csv.LF " "%char s.

(** [spec_url] as computed for a product row. *)
Definition spec_url_of (row : list string) : Result string :=
  if (11 <? List.length row)%nat then
    c <~ item row 11 ;;
    let raw_spec := Py.strip c in
    if Py.truthy raw_spec && negb (String.eqb raw_spec "#N/A")
       && Py.startswith "http" raw_spec
    then Ok raw_spec else Ok EmptyString
  else Ok EmptyString.

(** [row[i].strip() if len(row) > i else ''] *)
Definition text_column (row : list string) (i : nat) : Result string :=
  if (i <? List.length row)%nat then c <~ item row i ;; Ok (Py.strip c)
  else Ok EmptyString.

(** [parse_int(row[i] if len(row) > i else "0")] *)
Definition quantity_column (row : list string) (i : nat) : Result Z :=
  value <~ (if (i <? List.length row)%nat then item row i else Ok "0") ;;
  Ok (parse_int value).

(** The dict literal [product], its entries evaluated in order. *)
Definition product_dict (row : list string)
    (sku_col current_category current_subcategory spec_url : string)
    : Result Product :=
  description <~ text_column row 2 ;;
  wattage <~ text_column row 3 ;;
  let category :=
    if Py.truthy current_category then map_category current_category
    else map_category current_subcategory in
  ontario <~ quantity_column row 4 ;;
  louisville <~ quantity_column row 5 ;;
  phoenix <~ quantity_column row 6 ;;
  dallas <~ quantity_column row 7 ;;
  chicago <~ quantity_column row 8 ;;
  total <~ quantity_column row 9 ;;
  notes <~ text_column row 10 ;;
  Ok (mkProduct sku_col description wattage category current_subcategory
        ontario louisville phoenix dallas chicago total notes spec_url).

(** The body of [for row in rows[header_row_idx + 1:]]. *)
Definition loop_body (st : LoopState) (row : list string)
    : Result LoopState :=
  if (List.length row <? 2)%nat then Ok st
  else
    c0 <~ item row 0 ;;
    let first_col := if Py.truthy c0 then Py.strip c0 else EmptyString in
    sku_col <~ (if (1 <? List.length row)%nat then
                  c1 <~ item row 1 ;;
                  Ok (if Py.truthy c1 then Py.strip c1 else EmptyString)
                else Ok EmptyString) ;;
    if negb (Py.truthy first_col) && negb (Py.truthy sku_col) then Ok st
    else if Py.truthy first_col && negb (Py.truthy sku_col) then
      Ok (mkLoop (products st) (Py.strip (LF_to_space first_col)) EmptyString)
    else
      let st1 :=
        if Py.truthy first_col && Py.truthy sku_col
        then mkLoop (products st) (current_category st)
               (Py.strip (LF_to_space first_col))
        else st in
      if Py.truthy sku_col then
        spec_url <~ spec_url_of row ;;
        product <~ product_dict row sku_col (current_category st1)
                     (current_subcategory st1) spec_url ;;
        Ok (mkLoop (products st1 ++ [product]) (current_category st1)
              (current_subcategory st1))
      else Ok st1.

(** The [for] loop over the rows after the header row. *)
Fixpoint run_loop (rows : list (list string)) (st : LoopState)
    : Result LoopState :=
  match rows with
  | [] => Ok st
  | row :: rows' => st' <~ loop_body st row ;; run_loop rows' st'
  end.

Definition initial_loop : LoopState := mkLoop [] EmptyString EmptyString.

Definition parse_clearance_csv (csv_content : string) : M (list Product) :=
  rows <- lift (Csv.reader csv_content) ;;
  header_row_idx <- lift (find_header_row rows 0) ;;
  match header_row_idx with
  | None => print "Could not find header row" ;;; ret []
  | Some i =>
      st <- lift (run_loop (skipn (S i) rows) initial_loop) ;;
      ret (products st)
  end.

Definition output_path : string := "clearance_data.json".

Definition main : M Z :=
  t0 <- now ;;
  print ("Starting clearance update at " ++ isoformat t0)%string ;;;
  print ("Fetching clearance data (gid=" ++ GID ++ ")...")%string ;;;
  csv_content <- fetch_sheet_csv SHEET_ID GID ;;
  (* [if not csv_content]: [None] and the empty text are both false *)
  let content := match csv_content with
                 | Some text => text
                 | None => EmptyString
                 end in
  if negb (Py.truthy content)
  then print "Failed to fetch clearance data" ;;; ret 1
  else
    products <- parse_clearance_csv content ;;
    print ("Parsed " ++ PyInt.str_of_int (Z.of_nat (List.length products))
           ++ " clearance products")%string ;;;
    t1 <- now ;;
    t2 <- now ;;
    let all_data :=
      {| updated_at := isoformat t1;
         updated_at_pacific := long_date t2;
         clearance_name := "Clearance Stock";
         clearance_products := products;
         clearance_count := Z.of_nat (List.length products) |} in
    write_json output_path all_data ;;;
    print ("Wrote " ++ output_path)%string ;;;
    print "Update complete!" ;;;
    ret 0.

(** [exit(main())]: the exit status of the process, which is 1 when an
    exception escapes [main]. *)
Definition run (w : World) : Z * World :=
  match main w with
  | (Ok status, w') => (status, w')
  | (Raise _, w') => (1, w')
  end.

(** ** The row loop as pure functions

    Every [row[i]] of the script sits under a guard on [len(row)], so no
    [IndexError] arises.  The functions of this section are what the code
    above computes (lemmas [header_test_eq] to [parse_clearance_csv_eq]);
    the properties of the emitted products are proved on them. *)

(** The cell [row[i]] for [i] below [len(row)]. *)
Definition cell (row : list string) (i : nat) : string :=
  nth i row EmptyString.

(** The value of [header_test]. *)
Definition is_header_row (row : list string) : bool :=
  (1 <? List.length row)%nat
  && (Py.contains "Item# / SKU" (cell row 1)
      || Py.contains "Item#" (cell row 1)).

(** The value of [find_header_row]. *)
Fixpoint find_header (rows : list (list string)) (i : nat) : option nat :=
  match rows with
  | [] => None
  | row :: rows' =>
      if is_header_row row then Some i else find_header rows' (S i)
  end.

(** The value of [spec_url_of]. *)
Definition row_spec_url (row : list string) : string :=
  if (11 <? List.length row)%nat then
    let raw_spec := Py.strip (cell row 11) in
    if Py.truthy raw_spec && negb (String.eqb raw_spec "#N/A")
       && Py.startswith "http" raw_spec
    then raw_spec else EmptyString
  else EmptyString.

(** The value of [product_dict]. *)
Definition row_product (row : list string)
    (sku_col current_category current_subcategory spec_url : string)
    : Product :=
  {| sku := sku_col;
     description :=
       if (2 <? List.length row)%nat then Py.strip (cell row 2)
       else EmptyString;
     wattage :=
       if (3 <? List.length row)%nat then Py.strip (cell row 3)
       else EmptyString;
     category :=
       if Py.truthy current_category then map_category current_category
       else map_category current_subcategory;
     subcategory := current_subcategory;
     ontario := parse_int (if (4 <? List.length row)%nat then cell row 4 else "0");
     louisville := parse_int (if (5 <? List.length row)%nat then cell row 5 else "0");
     phoenix := parse_int (if (6 <? List.length row)%nat then cell row 6 else "0");
     dallas := parse_int (if (7 <? List.length row)%nat then cell row 7 else "0");
     chicago := parse_int (if (8 <? List.length row)%nat then cell row 8 else "0");
     total := parse_int (if (9 <? List.length row)%nat then cell row 9 else "0");
     notes :=
       if (10 <? List.length row)%nat then Py.strip (cell row 10)
       else EmptyString;
     spec_url := spec_url |}.

(** The value of [loop_body]. *)
Definition process_row (st : LoopState) (row : list string) : LoopState :=
  if (List.length row <? 2)%nat then st
  else
    let first_col :=
      if Py.truthy (cell row 0) then Py.strip (cell row 0) else EmptyString in
    let sku_col :=
      if (1 <? List.length row)%nat && Py.truthy (cell row 1)
      then Py.strip (cell row 1) else EmptyString in
    if negb (Py.truthy first_col) && negb (Py.truthy sku_col) then st
    else if Py.truthy first_col && negb (Py.truthy sku_col) then
      mkLoop (products st) (Py.strip (LF_to_space first_col)) EmptyString
    else
      let st1 :=
        if Py.truthy first_col && Py.truthy sku_col
        then mkLoop (products st) (current_category st)
               (Py.strip (LF_to_space first_col))
        else st in
      if Py.truthy sku_col then
        let spec_url := row_spec_url row in
        let product :=
          row_product row sku_col (current_category st1)
            (current_subcategory st1) spec_url in
        mkLoop (products st1 ++ [product]) (current_category st1)
          (current_subcategory st1)
      else st1.

(** What [parse_clearance_csv] makes of the rows: the products, or [None]
    when there is no header row. *)
Definition parse_rows (rows : list (list string)) : option (list Product) :=
  match find_header rows 0 with
  | None => None
  | Some header_row_idx =>
      Some (products
              (fold_left process_row (skipn (S header_row_idx) rows)
                 initial_loop))
  end.

(** ** Notions the specification uses *)

(** [alias] occurs in [label] as a substring, up to the case of letters:
    some substring of [label] lower-cases to the same text as [alias]. *)
Definition occurs_ignoring_case (alias label : string) : Prop :=
  exists pre w post,
    label = (pre ++ w ++ post)%string /\ Py.lower w = Py.lower alias.

(** The header row is at index [length pre] of [pre ++ hdr :: rest]. *)
Definition header_at (pre : list (list string)) (hdr : list string) : Prop :=
  Forall (fun row => is_header_row row = false) pre
  /\ is_header_row hdr = true.

(** A row whose second cell, if there is one, does not hold the header
    marker. *)
Definition no_marker (row : list string) : Prop :=
  forall c, nth_error row 1 = Some c -> Py.contains "Item#" c = false.

(** [p] is the product that the loop emits for [row], in some state of the
    two labels. *)
Definition emitted_from (row : list string) (p : Product) : Prop :=
  exists cat sub,
    (2 <= List.length row)%nat
    /\ Py.strip (cell row 1) <> EmptyString
    /\ p = row_product row (Py.strip (cell row 1)) cat sub (row_spec_url row).

(** The six quantity fields of a product, in column order 4..9. *)
Definition quantities (p : Product) : list Z :=
  [ontario p; louisville p; phoenix p; dallas p; chicago p; total p].

Definition quantity_columns : list nat := [4; 5; 6; 7; 8; 9]%nat.

(** The quantity [q] read from column [i] of [row]: 0 when the column is
    absent, 0 when the cell does not read as an integer, and not negative
    when the cell, commas and whitespace removed, does not start with a
    minus sign. *)
Definition quantity_ok (row : list string) (i : nat) (q : Z) : Prop :=
  ((List.length row <= i)%nat -> q = 0)
  /\ (PyInt.int_of_str (strip_commas_spaces (cell row i)) = None -> q = 0)
  /\ (Py.startswith "-" (strip_commas_spaces (cell row i)) = false -> 0 <= q).


(** What the absent columns of [row] leave in the product [p]: empty texts
    and zero quantities. *)
Definition defaults_ok (row : list string) (p : Product) : Prop :=
  ((List.length row <= 2)%nat -> description p = EmptyString)
  /\ ((List.length row <= 3)%nat -> wattage p = EmptyString)
  /\ Forall2 (quantity_ok row) quantity_columns (quantities p)
  /\ ((List.length row <= 10)%nat -> notes p = EmptyString)
  /\ ((List.length row <= 11)%nat -> spec_url p = EmptyString).

(** [content] has no carriage return. *)
Definition no_CR (content : string) : Prop :=
  ~ In Csv.CR (list_ascii_of_string content).

(** The reader is not waiting for the end of a line after a line break. *)
Definition settled (rd : Csv.Reader) : Prop := Csv.state rd <> Csv.EAT_CRNL.

(** The field being read may take one more character. *)
Definition room (rd : Csv.Reader) : Prop :=
  (N.of_nat (String.length (Csv.field rd)) < Csv.field_limit)%N.

(** ** Sample exports *)

(** A world in which nothing has happened yet and the sheet's export is
    [fetched]. *)
Definition world_with (fetched : string + string) : World :=
  {| urlopen := fun _ => fetched;
     clock := fun _ => mkInstant "2026-01-01T12:30:00+00:00" "January 01, 2026";
     ticks := 0;
     stdout := [];
     files := fun _ => None |}.

Definition eol : string := String Csv.CR (String Csv.LF EmptyString).
Definition dquote : string := String Csv.quotechar EmptyString.

(** A sheet export as the script receives it: a title line, the header
    row, a category row and three product rows; lines end in CR LF. *)
Definition sample_csv : string :=
  ("Clearance Stock,,,,,,,,,,," ++ eol
   ++ "Category,Item# / SKU,Description,Wattage,Ontario,Louisville,Phoenix,Dallas,Chicago,Total,Notes,Spec"
   ++ eol
   ++ "Area Lights,,,,,,,,,,," ++ eol
   ++ ",AL2-100,Area light,100W,1,2,3,4,5,15,,#N/A" ++ eol
   ++ "Flood,AL2-150,Area light,150W," ++ dquote ++ "1,234" ++ dquote
   ++ ",0,,x,-5,1229,last ones,https://example.com/al2.pdf" ++ eol
   ++ ",AL2-200,Area light,200W")%string.

Definition sample_world : World := world_with (inl sample_csv).

Definition sample_rows : list (list string) :=
  Eval vm_compute in
    match Csv.reader sample_csv with Ok rows => rows | Raise _ => [] end.

Definition sample_products : list Product :=
  Eval vm_compute in
    match fst (parse_clearance_csv sample_csv sample_world) with
    | Ok ps => ps
    | Raise _ => []
    end.

(** The second product of the sample: a subcategory row with a thousands
    separator, a negative count and a specification link. *)
Definition sample_flood : Product :=
  Eval vm_compute in
    match sample_products with
    | _ :: p :: _ => p
    | _ => mkProduct EmptyString EmptyString EmptyString EmptyString
             EmptyString 0 0 0 0 0 0 EmptyString EmptyString
    end.

(** The sheet's export is the empty text: a sheet with no cells. *)
Definition empty_world : World := world_with (inl EmptyString).

(** A sheet with rows and no header marker. *)
Definition headless_csv : string :=
  ("Area Lights," ++ eol ++ ",AL2-100,Area light" ++ eol)%string.

Definition headless_world : World := world_with (inl headless_csv).

(** Two product rows, the first with a subcategory label, in an export that
    has no header row. *)
Definition unlocated_csv : string :=
  ("Flood,AL2-150" ++ eol ++ ",AL2-200" ++ eol)%string.

(** A carriage return outside quotes, followed by more text on the line. *)
Definition bare_CR_csv : string :=
  ("a" ++ String Csv.CR EmptyString ++ "b")%string.

(** A two-line export whose lines end in a line feed alone. *)
Definition lf_csv : string :=
  ("Header,Item#" ++ String Csv.LF EmptyString ++ ",SKU-1,lamp")%string.

(** ** Notions of the further properties *)

(** [CATEGORY_MAP] without the item of the alias [AL2N]. *)
Definition CATEGORY_MAP_without_AL2N : list (string * string) :=
  filter (fun item => negb (String.eqb (fst item) "AL2N")) CATEGORY_MAP.

(** [s] is made of decimal digits only. *)
Fixpoint all_digits (s : string) : bool :=
  match s with
  | EmptyString => true
  | String c s' => PyInt.is_digit c && all_digits s'
  end.

(** A character that [parse_int] removes before reading. *)
Definition separator (c : ascii) : bool :=
  Ascii.eqb c ","%char || Py.isspace c.

(** A character that an integer literal can hold: a digit, an underscore or
    a sign. *)
Definition literal_char (c : ascii) : bool :=
  PyInt.is_digit c || Ascii.eqb c PyInt.underscore
  || Ascii.eqb c "+"%char || Ascii.eqb c "-"%char.

(** The row has at least two cells and a SKU: the loop emits a product. *)
Definition row_has_sku (row : list string) : bool :=
  (2 <=? List.length row)%nat && Py.truthy (Py.strip (cell row 1)).

(** The row is a category row: a label and no SKU. *)
Definition row_is_category (row : list string) : bool :=
  (2 <=? List.length row)%nat && Py.truthy (Py.strip (cell row 0))
  && negb (Py.truthy (Py.strip (cell row 1))).

(** The row has fewer than two cells, or its first two cells are blank. *)
Definition row_is_skipped (row : list string) : bool :=
  (List.length row <? 2)%nat
  || (negb (Py.truthy (Py.strip (cell row 0)))
      && negb (Py.truthy (Py.strip (cell row 1)))).

(** [s] has no whitespace at either end. *)
Definition trimmed (s : string) : Prop := Py.strip s = s.


(** The value of the decimal digits [d] read after the value [acc]. *)
Fixpoint digits_value (acc : Z) (d : string) : Z :=
  match d with
  | EmptyString => acc
  | String c d' => digits_value (10 * acc + PyInt.digit_value c) d'
  end.


(** The category of [p] as the loop gives it when the category label is
    [label]: the label's canonical name, or that of the product's
    subcategory when the label is empty. *)
Definition category_from (label : string) (p : Product) : Prop :=
  category p = if Py.truthy label then map_category label
               else map_category (subcategory p).

(** The lines [main] prints before it looks at the fetched text. *)
Definition main_opening (t0 : Instant) : list string :=
  [("Starting clearance update at " ++ isoformat t0)%string;
   ("Fetching clearance data (gid=" ++ GID ++ ")...")%string].

(** The lines [main] prints once the products are parsed. *)
Definition main_closing (ps : list Product) : list string :=
  [("Parsed " ++ PyInt.str_of_int (Z.of_nat (List.length ps))
    ++ " clearance products")%string;
   ("Wrote " ++ output_path)%string;
   "Update complete!"].

(** The document [main] writes for the products [ps], with the time stamps
    read at [t1] and [t2]. *)
Definition document_of (t1 t2 : Instant) (ps : list Product) : Document :=
  {| updated_at := isoformat t1;
     updated_at_pacific := long_date t2;
     clearance_name := "Clearance Stock";
     clearance_products := ps;
     clearance_count := Z.of_nat (List.length ps) |}.

(** The fetch gave a text that is not empty. *)
Definition fetched (w : World) (content : string) : Prop :=
  urlopen w (export_url SHEET_ID GID) = inl content
  /\ content <> EmptyString.

(** The cell of column [i] as a text field: trimmed, or empty when the row
    is too short. *)
Definition text_of_column (row : list string) (i : nat) : string :=
  if (i <? List.length row)%nat then Py.strip (cell row i) else EmptyString.

(** The cell of column [i] as a quantity: [parse_int] of the cell, or of
    ["0"] when the row is too short. *)
Definition quantity_of_column (row : list string) (i : nat) : Z :=
  parse_int (if (i <? List.length row)%nat then cell row i else "0").

(** ** Case and line feeds, in the words of the specification *)

(** [up] is the upper-case form of the letter [lo]: [lo] is a lower-case
    letter (a to z, or one of the accented letters 224..254 other than the
    division sign 247) and [up] stands 32 code points below it. *)
Definition is_upper_of (up lo : ascii) : bool :=
  let u := Py.ord up in
  let l := Py.ord lo in
  ((u + 32 =? l)
   && (((97 <=? l) && (l <=? 122))
       || ((224 <=? l) && (l <=? 254) && negb (l =? 247))))%N.

(** Two characters that are the same up to the case of letters. *)
Definition same_letter (a b : ascii) : bool :=
  Ascii.eqb a b || is_upper_of a b || is_upper_of b a.

(** Two texts of the same length that are the same, character by
    character, up to the case of letters. *)
Fixpoint same_text (s t : string) : bool :=
  match s, t with
  | EmptyString, EmptyString => true
  | String a s', String b t' => same_letter a b && same_text s' t'
  | _, _ => false
  end.

(** [alias] occurs in [label] as a case-insensitive substring: some
    substring of [label] is [alias] up to the case of letters. *)
Definition occurs_without_case (alias label : string) : Prop :=
  exists pre w post,
    label = (pre ++ w ++ post)%string /\ same_text w alias = true.




(** ** Facts about the [str] methods *)

Module PyFacts.
Import Py.

Lemma startswith_spec (p s : string) :
  startswith p s = true <-> exists post, s = (p ++ post)%string.
Proof.
  revert s; induction p as [|a p IH]; intros s; simpl.
  - split; [intros _; now exists s | reflexivity].
  - destruct s as [|b s].
    + split; [discriminate | intros [post H]; discriminate].
    + rewrite andb_true_iff, Ascii.eqb_eq, IH. split.
      * intros [-> [post ->]]. now exists post.
      * intros [post H]. injection H as -> ->. split; [reflexivity | now exists post].
Qed.

Lemma contains_spec (sub s : string) :
  contains sub s = true <-> exists pre post, s = (pre ++ sub ++ post)%string.
Proof.
  induction s as [|a s IH].
  - simpl. destruct (startswith sub EmptyString) eqn:E.
    + split; [intros _ | reflexivity].
      apply startswith_spec in E. destruct E as [post E].
      now exists EmptyString, post.
    + split; [discriminate |]. intros [pre [post H]].
      destruct pre; [|discriminate]. simpl in H.
      assert (startswith sub EmptyString = true)
        by (apply startswith_spec; now exists post).
      congruence.
  - simpl. destruct (startswith sub (String a s)) eqn:E.
    + split; [intros _ | reflexivity].
      apply startswith_spec in E. destruct E as [post E].
      now exists EmptyString, post.
    + rewrite IH. split.
      * intros [pre [post ->]]. now exists (String a pre), post.
      * intros [pre [post H]]. destruct pre as [|b pre].
        -- simpl in H.
           assert (startswith sub (String a s) = true)
             by (apply startswith_spec; now exists post).
           congruence.
        -- simpl in H. injection H as _ ->. now exists pre, post.
Qed.

Lemma lower_append (a b : string) :
  lower (a ++ b) = (lower a ++ lower b)%string.
Proof. induction a as [|x a IH]; simpl; [reflexivity | now rewrite IH]. Qed.

(** A split of [lower s] comes from a split of [s]. *)
Lemma lower_split (s u v : string) :
  lower s = (u ++ v)%string ->
  exists s1 s2, s = (s1 ++ s2)%string /\ lower s1 = u /\ lower s2 = v.
Proof.
  revert s; induction u as [|x u IH]; intros s H.
  - exists EmptyString, s. now repeat split.
  - destruct s as [|c s]; [discriminate |]. simpl in H.
    injection H as Hx H. destruct (IH s H) as [s1 [s2 [-> [H1 H2]]]].
    exists (String c s1), s2. simpl. now rewrite Hx, H1, H2.
Qed.

(** The test [key.lower() in raw.lower()] decides occurrence up to case. *)
Lemma contains_lower_iff (alias label : string) :
  contains (lower alias) (lower label) = true
  <-> occurs_ignoring_case alias label.
Proof.
  rewrite contains_spec. split.
  - intros [pre [post H]].
    destruct (lower_split _ _ _ H) as [s1 [r [-> [H1 H2]]]].
    destruct (lower_split _ _ _ H2) as [w [s3 [-> [Hw H3]]]].
    now exists s1, w, s3.
  - intros [pre [w [post [-> Hw]]]].
    exists (lower pre), (lower post).
    now rewrite !lower_append, Hw.
Qed.

End PyFacts.

(** ** Category normalisation: first match in declared order *)

Lemma map_category_loop_first (items : list (string * string)) (X : string) :
  forall before A C after,
    items = before ++ (A, C) :: after ->
    occurs_ignoring_case A X ->
    (forall A' C', In (A', C') before -> ~ occurs_ignoring_case A' X) ->
    map_category_loop items X = C.
Proof.
  intros before; revert items.
  induction before as [|[A' C'] before IH]; intros items A C after -> HA Hno.
  - simpl. apply PyFacts.contains_lower_iff in HA. now rewrite HA.
  - simpl. destruct (Py.contains (Py.lower A') (Py.lower X)) eqn:E.
    + apply PyFacts.contains_lower_iff in E.
      exfalso. apply (Hno A' C'); [now left | exact E].
    + apply (IH _ A C after eq_refl HA).
      intros A2 C2 Hin. apply (Hno A2 C2). now right.
Qed.

Lemma map_category_loop_none (items : list (string * string)) (X : string) :
  (forall A C, In (A, C) items -> ~ occurs_ignoring_case A X) ->
  map_category_loop items X = X.
Proof.
  induction items as [|[A C] items IH]; intros Hno; simpl.
  - reflexivity.
  - destruct (Py.contains (Py.lower A) (Py.lower X)) eqn:E.
    + apply PyFacts.contains_lower_iff in E.
      exfalso. apply (Hno A C); [now left | exact E].
    + apply IH. intros A2 C2 Hin. apply (Hno A2 C2). now right.
Qed.

(** Lower-casing identifies exactly the characters that are the same up to
    the case of letters. *)
Module CaseFacts.
Import Py.

Lemma ord_inj (a b : ascii) : ord a = ord b -> a = b.
Proof.
  unfold ord. intros H.
  rewrite <- (ascii_N_embedding a), <- (ascii_N_embedding b). now rewrite H.
Qed.

Lemma eqb_ord (a b : ascii) : Ascii.eqb a b = (ord a =? ord b)%N.
Proof.
  destruct (Ascii.eqb a b) eqn:E.
  - apply Ascii.eqb_eq in E. subst. symmetry. apply N.eqb_refl.
  - symmetry. apply N.eqb_neq. intros H. apply ord_inj in H.
    apply Ascii.eqb_neq in E. contradiction.
Qed.

Lemma ord_lower_char (c : ascii) :
  ord (lower_char c)
  = (if ((65 <=? ord c) && (ord c <=? 90))
        || ((192 <=? ord c) && (ord c <=? 222) && negb (ord c =? 215))
     then ord c + 32 else ord c)%N.
Proof.
  unfold lower_char. cbv zeta.
  destruct (((65 <=? ord c) && (ord c <=? 90))
            || ((192 <=? ord c) && (ord c <=? 222) && negb (ord c =? 215)))%N
    eqn:E; [| reflexivity].
  unfold ord at 1. apply N_ascii_embedding.
  apply orb_true_iff in E as [E | E].
  - apply andb_true_iff in E as [_ E]. apply N.leb_le in E. lia.
  - apply andb_true_iff in E as [E _]. apply andb_true_iff in E as [_ E].
    apply N.leb_le in E. lia.
Qed.

Lemma same_letter_lower (a b : ascii) :
  same_letter a b = true <-> lower_char a = lower_char b.
Proof.
  assert (lower_char a = lower_char b
          <-> ord (lower_char a) = ord (lower_char b)) as ->
    by (split; [now intros -> | apply ord_inj]).
  rewrite !ord_lower_char. unfold same_letter, is_upper_of. cbv zeta.
  rewrite eqb_ord.
  pose proof (N_ascii_bounded a) as Ha. pose proof (N_ascii_bounded b) as Hb.
  fold (ord a) in Ha. fold (ord b) in Hb.
  generalize dependent (ord a). generalize dependent (ord b).
  intros nb Hb na Ha.
  repeat (progress rewrite ?orb_true_iff, ?andb_true_iff, ?negb_true_iff,
            ?N.eqb_eq, ?N.eqb_neq, ?N.leb_le).
  destruct (((65 <=? na) && (na <=? 90))
            || ((192 <=? na) && (na <=? 222) && negb (na =? 215)))%N eqn:Ea;
    destruct (((65 <=? nb) && (nb <=? 90))
              || ((192 <=? nb) && (nb <=? 222) && negb (nb =? 215)))%N eqn:Eb;
    repeat (progress rewrite ?orb_true_iff, ?orb_false_iff, ?andb_true_iff,
              ?andb_false_iff, ?negb_true_iff, ?negb_false_iff, ?N.eqb_eq,
              ?N.eqb_neq, ?N.leb_le, ?N.leb_gt in Ea);
    repeat (progress rewrite ?orb_true_iff, ?orb_false_iff, ?andb_true_iff,
              ?andb_false_iff, ?negb_true_iff, ?negb_false_iff, ?N.eqb_eq,
              ?N.eqb_neq, ?N.leb_le, ?N.leb_gt in Eb);
    lia.
Qed.

Lemma same_text_lower (s t : string) :
  same_text s t = true <-> lower s = lower t.
Proof.
  revert t. induction s as [|a s IH]; intros [|b t]; simpl;
    try (split; [reflexivity | reflexivity]);
    try (split; discriminate).
  rewrite andb_true_iff, same_letter_lower, IH. split.
  - now intros [-> ->].
  - intros H. now injection H.
Qed.

Lemma occurs_without_case_iff (alias label : string) :
  occurs_without_case alias label <-> occurs_ignoring_case alias label.
Proof.
  unfold occurs_without_case, occurs_ignoring_case.
  split; intros [pre [w [post [H Hw]]]]; exists pre, w, post;
    (split; [exact H |]); now apply same_text_lower.
Qed.

End CaseFacts.

(** C1. For every raw label [X], [map_category X] is the canonical name of
    the first alias, in the declared order of [CATEGORY_MAP], whose text
    occurs in [X] as a case-insensitive substring (some substring of [X]
    is the alias up to the case of its letters); when no alias so occurs
    in [X], [map_category X] is [X] itself. *)
Theorem map_category_first_match (X : string) :
  (forall before A C after,
      CATEGORY_MAP = before ++ (A, C) :: after ->
      occurs_without_case A X ->
      (forall A' C', In (A', C') before -> ~ occurs_without_case A' X) ->
      map_category X = C)
  /\ ((forall A C, In (A, C) CATEGORY_MAP -> ~ occurs_without_case A X) ->
      map_category X = X).
Proof.
  split.
  - intros before A C after H HA Hno.
    apply (map_category_loop_first CATEGORY_MAP X before A C after H).
    + now apply CaseFacts.occurs_without_case_iff.
    + intros A' C' Hin Hocc. apply (Hno A' C' Hin).
      now apply CaseFacts.occurs_without_case_iff.
  - intros Hno. apply map_category_loop_none.
    intros A C Hin Hocc. apply (Hno A C Hin).
    now apply CaseFacts.occurs_without_case_iff.
Qed.

(** The label [al2n WIDE] holds the second alias, in another case than the
    declared one, and not the first. *)
Lemma map_category_first_match_witness :
  map_category "al2n WIDE" = "Area Light".
Proof.
  apply (proj1 (map_category_first_match "al2n WIDE")
           [("Area Light", "Area Light")] "AL2" "Area Light"
           (skipn 2 CATEGORY_MAP)).
  - reflexivity.
  - exists EmptyString, "al2", "n WIDE". split; reflexivity.
  - intros A' C' [H | []]. injection H as <- <-.
    intros Hocc. apply CaseFacts.occurs_without_case_iff in Hocc.
    apply PyFacts.contains_lower_iff in Hocc.
    vm_compute in Hocc. discriminate.
Defined.

(** ** Numeric coercion: [int], [str] and [parse_int] *)

Module PyIntFacts.
Import PyInt.

Ltac each_digit d :=
  let H := fresh "Hd" in
  assert (H : d = 0 \/ d = 1 \/ d = 2 \/ d = 3 \/ d = 4 \/ d = 5 \/ d = 6
              \/ d = 7 \/ d = 8 \/ d = 9) by lia;
  repeat (destruct H as [H | H]); subst d.

Lemma digit_char_is_digit (d : Z) :
  0 <= d < 10 -> is_digit (digit_char d) = true.
Proof. intros H. each_digit d; reflexivity. Qed.

Lemma digit_char_value (d : Z) :
  0 <= d < 10 -> digit_value (digit_char d) = d.
Proof. intros H. each_digit d; reflexivity. Qed.

Lemma digit_char_kept (d : Z) :
  0 <= d < 10 ->
  (Ascii.eqb (digit_char d) ","%char || Py.isspace (digit_char d)) = false.
Proof. intros H. each_digit d; reflexivity. Qed.

Lemma int_of_str_digit_first (d : Z) (rest : string) :
  0 <= d < 10 ->
  int_of_str (String (digit_char d) rest)
  = int_digits (String (digit_char d) rest) false 0.
Proof. intros H. each_digit d; reflexivity. Qed.

Lemma mod10_digit (n : Z) : 0 <= n mod 10 < 10.
Proof. apply Z.mod_pos_bound. lia. Qed.

(** Reading back the digits that [str_digits] wrote gives [n], and the
    reading goes on with what followed them. *)
Lemma int_digits_str_digits (fuel : nat) :
  forall n acc prev,
    0 <= n < 2 ^ Z.of_nat (S fuel) ->
    int_digits (str_digits (S fuel) n acc) prev 0 = int_digits acc true n.
Proof.
  induction fuel as [|fuel IH]; intros n acc prev Hn.
  - assert ((n <? 10) = true) as Hlt by (apply Z.ltb_lt; simpl in Hn; lia).
    simpl. rewrite Hlt. simpl.
    rewrite Z.mod_small by (apply Z.ltb_lt in Hlt; lia).
    rewrite digit_char_is_digit, digit_char_value
      by (apply Z.ltb_lt in Hlt; lia).
    f_equal.
  - change (str_digits (S (S fuel)) n acc)
      with (let acc' := String (digit_char (n mod 10)) acc in
            if n <? 10 then acc' else str_digits (S fuel) (n / 10) acc').
    cbv zeta. destruct (n <? 10) eqn:Hlt.
    + apply Z.ltb_lt in Hlt. simpl.
      rewrite Z.mod_small by lia.
      rewrite digit_char_is_digit, digit_char_value by lia.
      f_equal.
    + apply Z.ltb_ge in Hlt.
      rewrite IH.
      * simpl.
        rewrite digit_char_is_digit, digit_char_value by apply mod10_digit.
        f_equal. rewrite (Z.div_mod n 10) at 3 by lia. reflexivity.
      * split; [apply Z.div_pos; lia |].
        apply Z.div_lt_upper_bound; [lia |].
        rewrite Nat2Z.inj_succ, Z.pow_succ_r in Hn by lia. lia.
Qed.

Lemma strip_commas_spaces_str_digits (fuel : nat) :
  forall n acc,
    strip_commas_spaces acc = acc ->
    strip_commas_spaces (str_digits fuel n acc) = str_digits fuel n acc.
Proof.
  induction fuel as [|fuel IH]; intros n acc Hacc; simpl; [exact Hacc |].
  assert (strip_commas_spaces (String (digit_char (n mod 10)) acc)
          = String (digit_char (n mod 10)) acc) as Hstep.
  { simpl. rewrite digit_char_kept by apply mod10_digit. now rewrite Hacc. }
  destruct (n <? 10); [exact Hstep | now apply IH].
Qed.

(** [str_digits] starts with a digit. *)
Lemma str_digits_head (fuel : nat) :
  forall n acc,
    exists d rest,
      0 <= d < 10 /\ str_digits (S fuel) n acc = String (digit_char d) rest.
Proof.
  induction fuel as [|fuel IH]; intros n acc.
  - exists (n mod 10), acc. split; [apply mod10_digit |].
    simpl. now destruct (n <? 10).
  - change (str_digits (S (S fuel)) n acc)
      with (let acc' := String (digit_char (n mod 10)) acc in
            if n <? 10 then acc' else str_digits (S fuel) (n / 10) acc').
    cbv zeta. destruct (n <? 10).
    + exists (n mod 10), acc. split; [apply mod10_digit | reflexivity].
    + apply IH.
Qed.

Lemma digits_fuel_enough (n : Z) :
  0 <= n -> 0 <= n < 2 ^ Z.of_nat (digits_fuel n).
Proof.
  intros Hn. split; [exact Hn |]. unfold digits_fuel.
  rewrite Nat2Z.inj_succ, Z2Nat.id by apply Z.log2_nonneg.
  destruct (Z.eq_dec n 0) as [-> | Hne]; [reflexivity |].
  apply Z.log2_spec. lia.
Qed.

(** [int(str(n)) = n] *)
Lemma int_of_str_str_of_int (n : Z) : int_of_str (str_of_int n) = Some n.
Proof.
  unfold str_of_int. destruct (n <? 0) eqn:Hneg.
  - apply Z.ltb_lt in Hneg.
    change (option_map Z.opp
              (int_digits (str_digits (digits_fuel (- n)) (- n) EmptyString)
                 false 0) = Some n).
    unfold digits_fuel at 1.
    rewrite int_digits_str_digits
      by (apply (digits_fuel_enough (- n)); lia).
    simpl. f_equal. lia.
  - apply Z.ltb_ge in Hneg.
    destruct (str_digits_head (Z.to_nat (Z.log2 n)) n EmptyString)
      as [d [rest [Hd Hhead]]].
    unfold digits_fuel. rewrite Hhead, int_of_str_digit_first by exact Hd.
    rewrite <- Hhead.
    rewrite int_digits_str_digits by (apply (digits_fuel_enough n); lia).
    reflexivity.
Qed.

Lemma strip_commas_spaces_minus (s : string) :
  strip_commas_spaces (String "-" s) = String "-" (strip_commas_spaces s).
Proof. reflexivity. Qed.

Lemma strip_commas_spaces_str_of_int (n : Z) :
  strip_commas_spaces (str_of_int n) = str_of_int n.
Proof.
  unfold str_of_int. destruct (n <? 0).
  - rewrite strip_commas_spaces_minus.
    now rewrite strip_commas_spaces_str_digits.
  - now apply strip_commas_spaces_str_digits.
Qed.

Lemma str_of_int_truthy (n : Z) : Py.truthy (str_of_int n) = true.
Proof.
  unfold str_of_int. destruct (n <? 0); [reflexivity |].
  destruct (str_digits_head (Z.to_nat (Z.log2 n)) n EmptyString)
    as [d [rest [_ Hhead]]].
  unfold digits_fuel. now rewrite Hhead.
Qed.

(** [parse_int(str(n)) = n] *)
Lemma parse_int_str_of_int (n : Z) : parse_int (str_of_int n) = n.
Proof.
  unfold parse_int.
  rewrite str_of_int_truthy, strip_commas_spaces_str_of_int,
    int_of_str_str_of_int.
  reflexivity.
Qed.

(** The digits of a literal read from a non-negative start stay
    non-negative. *)
Lemma int_digits_nonneg (s : string) :
  forall prev acc n, 0 <= acc -> int_digits s prev acc = Some n -> 0 <= n.
Proof.
  induction s as [|c s IH]; intros prev acc n Hacc H; simpl in H.
  - destruct prev; [injection H as <-; exact Hacc | discriminate].
  - destruct (is_digit c) eqn:Hc.
    + apply (IH true (10 * acc + digit_value c) n); [| exact H].
      unfold is_digit in Hc. apply andb_true_iff in Hc as [Hlo _].
      apply N.leb_le in Hlo. unfold digit_value. lia.
    + destruct (Ascii.eqb c underscore && prev); [| discriminate].
      now apply (IH false acc n).
Qed.

End PyIntFacts.

(** [parse_int] is the integer reading of the cleaned text, 0 when there is
    none; the early return on the empty string agrees with it. *)
Lemma parse_int_eq (s : string) :
  parse_int s = match PyInt.int_of_str (strip_commas_spaces s) with
                | Some n => n
                | None => 0
                end.
Proof. destruct s; reflexivity. Qed.

(** C4. For every string [s], [parse_int s] removes exactly the commas and
    the whitespace characters of [s], reads the rest as an integer and gives
    0 when that fails; it is a total function, so it never raises.  On the
    four inputs of the specification it gives 1234, 0, 0 and 42. *)
Theorem parse_int_coercion :
  (forall s,
      list_ascii_of_string (strip_commas_spaces s)
      = filter (fun c => negb (Ascii.eqb c ","%char || Py.isspace c))
          (list_ascii_of_string s))
  /\ (forall s,
         parse_int s = match PyInt.int_of_str (strip_commas_spaces s) with
                       | Some n => n
                       | None => 0
                       end)
  /\ parse_int "1,234" = 1234
  /\ parse_int EmptyString = 0
  /\ parse_int "abc" = 0
  /\ parse_int "  42 " = 42.
Proof.
  split; [| split; [| repeat split]].
  - induction s as [|c s IH]; simpl; [reflexivity |].
    destruct (Ascii.eqb c ","%char || Py.isspace c); simpl;
      [exact IH | now rewrite IH].
  - exact parse_int_eq.
Qed.

(** C8. [parse_int] is idempotent on its own output: for every string [s],
    [parse_int (str (parse_int s)) = parse_int s]. *)
Theorem parse_int_idempotent (s : string) :
  parse_int (PyInt.str_of_int (parse_int s)) = parse_int s.
Proof. apply PyIntFacts.parse_int_str_of_int. Qed.

(** ** The row loop *)

Lemma truthy_true (s : string) : Py.truthy s = true <-> s <> EmptyString.
Proof. destruct s; simpl; split; congruence. Qed.


Lemma strip_guard (c : string) :
  (if Py.truthy c then Py.strip c else EmptyString) = Py.strip c.
Proof. now destruct c. Qed.

(** The body of the loop for a row of at least two cells, with the guards
    on [len(row)] and on empty cells resolved. *)
Lemma process_row_eq (st : LoopState) (row : list string) :
  (2 <= List.length row)%nat ->
  process_row st row
  = let first_col := Py.strip (cell row 0) in
    let sku_col := Py.strip (cell row 1) in
    if negb (Py.truthy first_col) && negb (Py.truthy sku_col) then st
    else if Py.truthy first_col && negb (Py.truthy sku_col) then
      mkLoop (products st) (Py.strip (LF_to_space first_col)) EmptyString
    else
      let st1 :=
        if Py.truthy first_col && Py.truthy sku_col
        then mkLoop (products st) (current_category st)
               (Py.strip (LF_to_space first_col))
        else st in
      if Py.truthy sku_col then
        mkLoop (products st1
                ++ [row_product row sku_col (current_category st1)
                      (current_subcategory st1) (row_spec_url row)])
          (current_category st1) (current_subcategory st1)
      else st1.
Proof.
  intros H. unfold process_row.
  assert ((List.length row <? 2)%nat = false) as -> by (apply Nat.ltb_ge; lia).
  assert ((1 <? List.length row)%nat = true) as -> by (apply Nat.ltb_lt; lia).
  rewrite andb_true_l, !strip_guard. reflexivity.
Qed.

Section ProcessRow.
Variables (st : LoopState) (c0 c1 : string) (rest : list string).

Lemma process_row_blank :
  Py.strip c0 = EmptyString -> Py.strip c1 = EmptyString ->
  process_row st (c0 :: c1 :: rest) = st.
Proof.
  intros H0 H1. rewrite process_row_eq by (simpl; lia).
  change (cell (c0 :: c1 :: rest) 0) with c0.
  change (cell (c0 :: c1 :: rest) 1) with c1.
  cbv zeta. rewrite H0, H1. reflexivity.
Qed.

Lemma process_row_category :
  Py.strip c0 <> EmptyString -> Py.strip c1 = EmptyString ->
  process_row st (c0 :: c1 :: rest)
  = mkLoop (products st) (Py.strip (LF_to_space (Py.strip c0))) EmptyString.
Proof.
  intros H0 H1. rewrite process_row_eq by (simpl; lia).
  change (cell (c0 :: c1 :: rest) 0) with c0.
  change (cell (c0 :: c1 :: rest) 1) with c1.
  cbv zeta. apply truthy_true in H0. rewrite H0, H1. reflexivity.
Qed.

Lemma process_row_product :
  Py.strip c1 <> EmptyString ->
  let sub := if Py.truthy (Py.strip c0)
             then Py.strip (LF_to_space (Py.strip c0))
             else current_subcategory st in
  process_row st (c0 :: c1 :: rest)
  = mkLoop (products st
            ++ [row_product (c0 :: c1 :: rest) (Py.strip c1)
                  (current_category st) sub
                  (row_spec_url (c0 :: c1 :: rest))])
      (current_category st) sub.
Proof.
  intros H1. rewrite process_row_eq by (simpl; lia).
  change (cell (c0 :: c1 :: rest) 0) with c0.
  change (cell (c0 :: c1 :: rest) 1) with c1.
  cbv zeta. apply truthy_true in H1. rewrite H1.
  destruct (Py.truthy (Py.strip c0)); reflexivity.
Qed.
End ProcessRow.

Lemma process_row_short (st : LoopState) (row : list string) :
  (List.length row < 2)%nat -> process_row st row = st.
Proof.
  intros H. unfold process_row.
  apply Nat.ltb_lt in H. now rewrite H.
Qed.

(** A row either leaves the products as they are or appends the one product
    it emits. *)
Lemma process_row_products (st : LoopState) (row : list string) :
  products (process_row st row) = products st
  \/ exists p, emitted_from row p
               /\ products (process_row st row) = products st ++ [p].
Proof.
  destruct row as [|c0 [|c1 rest]];
    try (left; now rewrite process_row_short by (simpl; lia)).
  destruct (string_dec (Py.strip c1) EmptyString) as [H1 | H1].
  - left. destruct (string_dec (Py.strip c0) EmptyString) as [H0 | H0].
    + now rewrite process_row_blank.
    + now rewrite process_row_category.
  - right. rewrite process_row_product by exact H1.
    eexists. split; [| reflexivity].
    eexists _, _. repeat split; [simpl; lia | exact H1].
Qed.

Lemma fold_process_row_emitted (rows : list (list string)) :
  forall st p,
    In p (products (fold_left process_row rows st)) ->
    In p (products st) \/ exists row, In row rows /\ emitted_from row p.
Proof.
  induction rows as [|row rows IH]; intros st p Hin; simpl in Hin.
  - now left.
  - destruct (IH _ _ Hin) as [H | [r [Hr Hem]]].
    + destruct (process_row_products st row) as [E | [q [Hq E]]];
        rewrite E in H.
      * now left.
      * apply in_app_or in H. destruct H as [H | [<- | []]].
        -- now left.
        -- right. exists row. split; [now left | exact Hq].
    + right. exists r. split; [now right | exact Hem].
Qed.

Lemma In_skipn {A : Type} (n : nat) (l : list A) (x : A) :
  In x (skipn n l) -> In x l.
Proof.
  revert l; induction n as [|n IH]; intros [|a l] H; simpl in *; auto.
Qed.

Lemma parse_rows_emitted (rows : list (list string)) (ps : list Product)
    (p : Product) :
  parse_rows rows = Some ps -> In p ps ->
  exists row, In row rows /\ emitted_from row p.
Proof.
  unfold parse_rows. destruct (find_header rows 0) as [i |]; [| discriminate].
  intros H Hin. injection H as <-.
  destruct (fold_process_row_emitted _ _ _ Hin) as [[] | [row [Hr Hem]]].
  exists row. split; [exact (In_skipn (S i) rows row Hr) | exact Hem].
Qed.

(** ** The guards on [len(row)] keep every index in range *)

Lemma item_cell (row : list string) (i : nat) :
  (i < List.length row)%nat -> item row i = Ok (cell row i).
Proof.
  intros H. unfold item, cell. destruct (nth_error row i) as [c |] eqn:E.
  - f_equal. symmetry. now apply nth_error_nth.
  - apply nth_error_None in E. lia.
Qed.

Lemma header_test_eq (row : list string) :
  header_test row = Ok (is_header_row row).
Proof.
  unfold header_test, is_header_row.
  destruct (1 <? List.length row)%nat eqn:Hlen; [| reflexivity].
  apply Nat.ltb_lt in Hlen. rewrite item_cell by exact Hlen. cbn [rbind andb].
  destruct (Py.contains "Item# / SKU" (cell row 1)); reflexivity.
Qed.

Lemma find_header_row_eq (rows : list (list string)) :
  forall i, find_header_row rows i = Ok (find_header rows i).
Proof.
  induction rows as [|row rows IH]; intros i; simpl; [reflexivity |].
  rewrite header_test_eq. cbn [rbind].
  destruct (is_header_row row); [reflexivity | apply IH].
Qed.

Lemma spec_url_of_eq (row : list string) :
  spec_url_of row = Ok (row_spec_url row).
Proof.
  unfold spec_url_of, row_spec_url.
  destruct (11 <? List.length row)%nat eqn:Hlen; [| reflexivity].
  apply Nat.ltb_lt in Hlen. rewrite item_cell by exact Hlen. cbn [rbind].
  now destruct (_ && _).
Qed.

Lemma text_column_eq (row : list string) (i : nat) :
  text_column row i
  = Ok (if (i <? List.length row)%nat then Py.strip (cell row i)
        else EmptyString).
Proof.
  unfold text_column.
  destruct (i <? List.length row)%nat eqn:Hlen; [| reflexivity].
  apply Nat.ltb_lt in Hlen. now rewrite item_cell by exact Hlen.
Qed.

Lemma quantity_column_eq (row : list string) (i : nat) :
  quantity_column row i
  = Ok (parse_int (if (i <? List.length row)%nat then cell row i else "0")).
Proof.
  unfold quantity_column.
  destruct (i <? List.length row)%nat eqn:Hlen; [| reflexivity].
  apply Nat.ltb_lt in Hlen. now rewrite item_cell by exact Hlen.
Qed.

Lemma product_dict_eq (row : list string) (k cat sub url : string) :
  product_dict row k cat sub url = Ok (row_product row k cat sub url).
Proof.
  unfold product_dict.
  rewrite !text_column_eq, !quantity_column_eq. reflexivity.
Qed.

(** The loop body never raises: it computes [process_row]. *)
Lemma loop_body_eq (st : LoopState) (row : list string) :
  loop_body st row = Ok (process_row st row).
Proof.
  unfold loop_body, process_row.
  destruct (List.length row <? 2)%nat eqn:Hlen; [reflexivity |].
  apply Nat.ltb_ge in Hlen.
  assert ((1 <? List.length row)%nat = true) as -> by (apply Nat.ltb_lt; lia).
  rewrite !item_cell by lia. cbn [rbind]. rewrite andb_true_l.
  set (first_col := if Py.truthy (cell row 0) then Py.strip (cell row 0)
                    else EmptyString).
  set (sku_col := if Py.truthy (cell row 1) then Py.strip (cell row 1)
                  else EmptyString).
  destruct (Py.truthy first_col), (Py.truthy sku_col); cbn [negb andb];
    rewrite ?spec_url_of_eq; cbn [rbind]; rewrite ?product_dict_eq;
    reflexivity.
Qed.

Lemma run_loop_eq (rows : list (list string)) :
  forall st, run_loop rows st = Ok (fold_left process_row rows st).
Proof.
  induction rows as [|row rows IH]; intros st; simpl; [reflexivity |].
  rewrite loop_body_eq. cbn [rbind]. apply IH.
Qed.

(** [parse_clearance_csv] in terms of the reader and of [parse_rows]. *)
Lemma parse_clearance_csv_eq (content : string) (w : World) :
  parse_clearance_csv content w
  = match Csv.reader content with
    | Ok rows =>
        match parse_rows rows with
        | Some ps => (Ok ps, w)
        | None =>
            (Ok [], mkWorld (urlopen w) (clock w) (ticks w)
                      (stdout w ++ ["Could not find header row"]) (files w))
        end
    | Raise e => (Raise e, w)
    end.
Proof.
  unfold parse_clearance_csv, parse_rows, bind, lift.
  destruct (Csv.reader content) as [rows | e]; [| reflexivity].
  rewrite find_header_row_eq.
  destruct (find_header rows 0) as [i |]; [| reflexivity].
  now rewrite run_loop_eq.
Qed.

(** What [parse_clearance_csv] returns comes from the rows of the reader. *)
Lemma parse_clearance_csv_ok (content : string) (w w' : World)
    (ps : list Product) :
  parse_clearance_csv content w = (Ok ps, w') ->
  exists rows,
    Csv.reader content = Ok rows
    /\ (parse_rows rows = Some ps \/ (parse_rows rows = None /\ ps = [])).
Proof.
  rewrite parse_clearance_csv_eq.
  destruct (Csv.reader content) as [rows | e]; [| discriminate].
  intros H. exists rows. split; [reflexivity |].
  destruct (parse_rows rows) as [ps' |].
  - left. now injection H as ->.
  - right. now injection H as <-.
Qed.

Lemma parse_clearance_csv_rows (content : string) (w : World)
    (rows : list (list string)) (ps : list Product) :
  Csv.reader content = Ok rows -> parse_rows rows = Some ps ->
  parse_clearance_csv content w = (Ok ps, w).
Proof.
  intros Hr Hp. now rewrite parse_clearance_csv_eq, Hr, Hp.
Qed.

Lemma parse_clearance_csv_emitted (content : string) (w w' : World)
    (ps : list Product) (p : Product) :
  parse_clearance_csv content w = (Ok ps, w') -> In p ps ->
  exists rows row,
    Csv.reader content = Ok rows /\ In row rows /\ emitted_from row p.
Proof.
  intros H Hin.
  destruct (parse_clearance_csv_ok _ _ _ _ H) as [rows [Hr [Hp | [_ ->]]]];
    [| destruct Hin].
  destruct (parse_rows_emitted _ _ _ Hp Hin) as [row [Hrow Hem]].
  now exists rows, row.
Qed.

(** ** Invariants of the emitted products *)

(** C9. Every emitted product has a non-empty [sku]: for every CSV input,
    every record that [parse_clearance_csv] returns has a non-empty [sku];
    and a row whose trimmed second cell is empty never emits a product. *)
Theorem products_have_sku :
  (forall content w ps w',
      parse_clearance_csv content w = (Ok ps, w') ->
      Forall (fun p => sku p <> EmptyString) ps)
  /\ (forall st row,
         Py.strip (cell row 1) = EmptyString ->
         exists st', loop_body st row = Ok st' /\ products st' = products st).
Proof.
  split.
  - intros content w ps w' H. apply Forall_forall. intros p Hin.
    destruct (parse_clearance_csv_emitted _ _ _ _ _ H Hin)
      as [rows [row [_ [_ [cat [sub [_ [Hsku ->]]]]]]]].
    exact Hsku.
  - intros st row H. exists (process_row st row).
    split; [apply loop_body_eq |].
    destruct (process_row_products st row) as [E | [p [[cat [sub [_ [Hne _]]]] _]]];
      [exact E | contradiction].
Qed.

Lemma products_have_sku_witness :
  parse_clearance_csv sample_csv sample_world = (Ok sample_products, sample_world)
  /\ Forall (fun p => sku p <> EmptyString) sample_products.
Proof.
  assert (parse_clearance_csv sample_csv sample_world
          = (Ok sample_products, sample_world)) as H
    by (vm_compute; reflexivity).
  split; [exact H |].
  exact (proj1 products_have_sku sample_csv sample_world sample_products
           sample_world H).
Defined.




(** ** The quantity fields *)

Lemma parse_int_unparseable (s : string) :
  PyInt.int_of_str (strip_commas_spaces s) = None -> parse_int s = 0.
Proof. intros H. now rewrite parse_int_eq, H. Qed.

Lemma parse_int_nonneg (s : string) :
  Py.startswith "-" (strip_commas_spaces s) = false -> 0 <= parse_int s.
Proof.
  intros Hminus. rewrite parse_int_eq.
  destruct (PyInt.int_of_str (strip_commas_spaces s)) as [n |] eqn:E; [| lia].
  destruct (strip_commas_spaces s) as [|c t]; [discriminate |].
  unfold PyInt.int_of_str in E.
  destruct (Ascii.eqb c "+"%char).
  - now apply (PyIntFacts.int_digits_nonneg t false 0 n).
  - destruct (Ascii.eqb c "-"%char) eqn:Hc.
    + apply Ascii.eqb_eq in Hc. subst c. discriminate Hminus.
    + now apply (PyIntFacts.int_digits_nonneg (String c t) false 0 n).
Qed.

Lemma quantity_ok_parse_int (row : list string) (i : nat) :
  quantity_ok row i
    (parse_int (if (i <? List.length row)%nat then cell row i else "0")).
Proof.
  unfold quantity_ok. destruct (i <? List.length row)%nat eqn:Hlen.
  - apply Nat.ltb_lt in Hlen. repeat split.
    + lia.
    + apply parse_int_unparseable.
    + apply parse_int_nonneg.
  - change (parse_int "0") with 0. repeat split; intros; lia.
Qed.

(** C5, as the code has it.  For every emitted product, each of the five
    location quantities and the total is an integer that is 0 when its
    column is absent or its cell does not read as an integer, and that is
    not negative unless the cell, once commas and whitespace are removed,
    starts with a minus sign. *)
Theorem quantities_coerced (content : string) (w w' : World)
    (ps : list Product) (p : Product) :
  parse_clearance_csv content w = (Ok ps, w') -> In p ps ->
  exists rows row,
    Csv.reader content = Ok rows /\ In row rows
    /\ sku p = Py.strip (cell row 1)
    /\ Forall2 (quantity_ok row) quantity_columns (quantities p).
Proof.
  intros H Hin.
  destruct (parse_clearance_csv_emitted _ _ _ _ _ H Hin)
    as [rows [row [Hr [Hrow [cat [sub [_ [_ ->]]]]]]]].
  exists rows, row.
  split; [exact Hr |]. split; [exact Hrow |]. split; [reflexivity |].
  unfold quantities, quantity_columns. cbn [row_product ontario louisville
    phoenix dallas chicago total].
  repeat (constructor; [apply quantity_ok_parse_int |]). constructor.
Qed.

Lemma quantities_coerced_witness :
  parse_clearance_csv sample_csv sample_world = (Ok sample_products, sample_world)
  /\ In sample_flood sample_products
  /\ exists row,
       In row sample_rows
       /\ Forall2 (quantity_ok row) quantity_columns (quantities sample_flood).
Proof.
  assert (parse_clearance_csv sample_csv sample_world
          = (Ok sample_products, sample_world)) as H
    by (vm_compute; reflexivity).
  assert (In sample_flood sample_products) as Hin
    by (right; left; reflexivity).
  split; [exact H |]. split; [exact Hin |].
  destruct (quantities_coerced sample_csv sample_world sample_world
              sample_products sample_flood H Hin)
    as [rows [row [Hr [Hrow [_ Hq]]]]].
  exists row. split; [| exact Hq].
  assert (Csv.reader sample_csv = Ok sample_rows) as Hs
    by (vm_compute; reflexivity).
  rewrite Hs in Hr. injection Hr as <-. exact Hrow.
Defined.

(** C5 as stated fails: the sample's second product row has [-5] in the
    Chicago column, and the product's [chicago] field is [-5]. *)
Lemma quantities_nonneg_fails :
  ~ (forall content w ps w' p,
        parse_clearance_csv content w = (Ok ps, w') -> In p ps ->
        Forall (fun q => 0 <= q) (quantities p)).
Proof.
  intros Hall.
  assert (parse_clearance_csv sample_csv sample_world
          = (Ok sample_products, sample_world)) as H
    by (vm_compute; reflexivity).
  assert (In sample_flood sample_products) as Hin
    by (right; left; reflexivity).
  specialize (Hall _ _ _ _ _ H Hin).
  assert (In (-5) (quantities sample_flood)) as Hq
    by (vm_compute; tauto).
  pose proof (proj1 (Forall_forall _ _) Hall (-5) Hq) as Hneg.
  cbv beta in Hneg. lia.
Qed.

(** ** Trimming and the replacement of line feeds *)

Module StripFacts.
Import Py.

Lemma isspace_LF_to_space (c : ascii) :
  isspace (if Ascii.eqb c Csv.LF then " "%char else c) = isspace c.
Proof.
  destruct (Ascii.eqb c Csv.LF) eqn:E; [| reflexivity].
  apply Ascii.eqb_eq in E. now subst c.
Qed.

Lemma lstrip_LF_to_space (s : string) :
  lstrip (LF_to_space s) = LF_to_space (lstrip s).
Proof.
  induction s as [|c s IH]; [reflexivity |].
  unfold LF_to_space in *. simpl.
  rewrite isspace_LF_to_space. destruct (isspace c); [exact IH | reflexivity].
Qed.

Lemma rstrip_LF_to_space (s : string) :
  rstrip (LF_to_space s) = LF_to_space (rstrip s).
Proof.
  induction s as [|c s IH]; [reflexivity |].
  unfold LF_to_space in *. simpl. rewrite IH.
  destruct (rstrip s) as [|d r]; simpl.
  - rewrite isspace_LF_to_space. now destruct (isspace c).
  - reflexivity.
Qed.

Lemma strip_LF_to_space (s : string) :
  strip (LF_to_space s) = LF_to_space (strip s).
Proof.
  unfold strip. now rewrite lstrip_LF_to_space, rstrip_LF_to_space.
Qed.

Lemma rstrip_idem (s : string) : rstrip (rstrip s) = rstrip s.
Proof.
  induction s as [|c s IH]; [reflexivity |].
  simpl. destruct (rstrip s) as [|d r] eqn:E.
  - destruct (isspace c) eqn:Hc; simpl; [reflexivity | now rewrite Hc].
  - change (rstrip (String c (String d r)))
      with (match rstrip (String d r) with
            | EmptyString =>
                if isspace c then EmptyString else String c EmptyString
            | String _ _ as r' => String c r'
            end).
    now rewrite IH.
Qed.

Lemma lstrip_head (s : string) :
  lstrip s = EmptyString
  \/ exists c r, lstrip s = String c r /\ isspace c = false.
Proof.
  induction s as [|c s IH]; [now left |].
  simpl. destruct (isspace c) eqn:Hc; [exact IH |].
  right. now exists c, s.
Qed.

Lemma rstrip_head (c : ascii) (r : string) :
  isspace c = false -> exists r', rstrip (String c r) = String c r'.
Proof.
  intros Hc. simpl. destruct (rstrip r) as [|d r'].
  - rewrite Hc. now exists EmptyString.
  - now exists (String d r').
Qed.

Lemma strip_idem (s : string) : strip (strip s) = strip s.
Proof.
  unfold strip. destruct (lstrip_head s) as [-> | [c [r [-> Hc]]]];
    [reflexivity |].
  destruct (rstrip_head c r Hc) as [r' Hr]. rewrite Hr.
  simpl lstrip. rewrite Hc, <- Hr. apply rstrip_idem.
Qed.

(** Trimming, replacing line feeds and trimming again is replacing the
    line feeds of the cell and trimming once. *)
Lemma strip_LF_strip (s : string) :
  strip (LF_to_space (strip s)) = strip (LF_to_space s).
Proof. now rewrite !strip_LF_to_space, strip_idem. Qed.

End StripFacts.


(** ** Locating the header row *)

Lemma find_header_located (pre : list (list string)) (hdr : list string)
    (rest : list (list string)) :
  header_at pre hdr ->
  forall i, find_header (pre ++ hdr :: rest) i = Some (i + List.length pre)%nat.
Proof.
  intros [Hpre Hhdr]. induction Hpre as [|row pre Hrow _ IH]; intros i; simpl.
  - rewrite Hhdr. f_equal. lia.
  - rewrite Hrow, IH. f_equal. lia.
Qed.

Lemma skipn_past_header {A : Type} (pre : list A) (hdr : A) (rest : list A) :
  skipn (S (List.length pre)) (pre ++ hdr :: rest) = rest.
Proof. induction pre as [|a pre IH]; [reflexivity | exact IH]. Qed.

Lemma parse_rows_located (pre : list (list string)) (hdr : list string)
    (rest : list (list string)) :
  header_at pre hdr ->
  parse_rows (pre ++ hdr :: rest)
  = Some (products (fold_left process_row rest initial_loop)).
Proof.
  intros H. unfold parse_rows.
  rewrite (find_header_located pre hdr rest H 0). cbn [Nat.add].
  now rewrite skipn_past_header.
Qed.


(** ** Category rows and subcategory rows *)





(** ** The run when the header row is missing *)

Lemma marker_in_long_form (c : string) :
  Py.contains "Item# / SKU" c = true -> Py.contains "Item#" c = true.
Proof.
  rewrite !PyFacts.contains_spec. intros [pre [post ->]].
  exists pre, (" / SKU" ++ post)%string. reflexivity.
Qed.

Lemma no_marker_not_header (row : list string) :
  no_marker row -> is_header_row row = false.
Proof.
  intros H. unfold is_header_row.
  destruct (1 <? List.length row)%nat eqn:Hlen; [| reflexivity].
  apply Nat.ltb_lt in Hlen.
  assert (Py.contains "Item#" (cell row 1) = false) as Hc.
  { apply H. unfold cell. now apply nth_error_nth'. }
  destruct (Py.contains "Item# / SKU" (cell row 1)) eqn:E.
  - apply marker_in_long_form in E. congruence.
  - now rewrite Hc.
Qed.

Lemma parse_rows_no_marker (rows : list (list string)) :
  Forall no_marker rows -> parse_rows rows = None.
Proof.
  intros H. unfold parse_rows.
  assert (forall i, find_header rows i = None) as Hnone.
  { induction H as [|row rows Hrow _ IH]; intros i; simpl; [reflexivity |].
    now rewrite (no_marker_not_header row Hrow). }
  now rewrite Hnone.
Qed.

(** C7, as the code has it.  If the fetched text is not empty, the CSV
    reader reads it into rows and no row has a second cell containing
    [Item#], then parsing returns the empty product list and prints that
    the header row was not found, the run writes an output document with no
    products and count 0, and the process exits with status 0. *)
Theorem missing_header_degrades (w : World) (content : string)
    (rows : list (list string)) :
  urlopen w (export_url SHEET_ID GID) = inl content ->
  content <> EmptyString ->
  Csv.reader content = Ok rows ->
  Forall no_marker rows ->
  fst (parse_clearance_csv content w) = Ok []
  /\ fst (run w) = 0
  /\ (exists doc,
         files (snd (run w)) output_path = Some doc
         /\ clearance_products doc = []
         /\ clearance_count doc = 0)
  /\ In "Could not find header row" (stdout (snd (run w))).
Proof.
  intros Hurl Hne Hr Hrows.
  pose proof (parse_rows_no_marker rows Hrows) as Hp.
  assert (forall w0, parse_clearance_csv content w0
                     = (Ok [], mkWorld (urlopen w0) (clock w0) (ticks w0)
                                 (stdout w0 ++ ["Could not find header row"])
                                 (files w0))) as Hparse.
  { intros w0. now rewrite parse_clearance_csv_eq, Hr, Hp. }
  split; [now rewrite Hparse |].
  destruct content as [|a s]; [congruence |].
  destruct w as [net clk tck out fs]. cbn [urlopen] in Hurl.
  pose proof (eq_refl (run (mkWorld net clk tck out fs))) as Hrun.
  unfold run in Hrun at 2. unfold main in Hrun.
  lazy beta iota zeta
    delta [bind now print ret fetch_sheet_csv urlopen clock ticks stdout files]
    in Hrun.
  rewrite Hurl in Hrun.
  lazy beta iota zeta
    delta [bind ret Py.truthy negb urlopen clock ticks stdout files] in Hrun.
  rewrite Hparse in Hrun.
  lazy beta iota zeta
    delta [bind now print ret write_json urlopen clock ticks stdout files]
    in Hrun.
  rewrite Hrun. cbn [fst snd files stdout].
  split; [reflexivity |]. split.
  - eexists. split; [now rewrite String.eqb_refl |]. split; reflexivity.
  - do 3 (apply in_or_app; left). apply in_or_app; right. now left.
Qed.

Lemma missing_header_degrades_witness :
  Csv.reader headless_csv
  = Ok [["Area Lights"; EmptyString]; [EmptyString; "AL2-100"; "Area light"]]
  /\ fst (run headless_world) = 0
  /\ exists doc,
       files (snd (run headless_world)) output_path = Some doc
       /\ clearance_products doc = []
       /\ clearance_count doc = 0.
Proof.
  assert (Csv.reader headless_csv
          = Ok [["Area Lights"; EmptyString];
                [EmptyString; "AL2-100"; "Area light"]]) as Hr
    by (vm_compute; reflexivity).
  split; [exact Hr |].
  destruct (missing_header_degrades headless_world headless_csv _
              eq_refl ltac:(discriminate) Hr) as [_ [H0 [Hdoc _]]].
  - repeat constructor; intros c Hc; injection Hc as <-; reflexivity.
  - split; [exact H0 | exact Hdoc].
Defined.

(** C7 as stated fails in two ways.  On the empty export no row holds the
    marker, yet the run takes the text for a failed fetch; on a text that
    the CSV reader refuses (a carriage return outside quotes, then more
    text) there is no marker either, yet the reader's error escapes.  Both
    runs write nothing and exit with status 1. *)
Lemma headerless_run_exits_1 :
  (Csv.reader EmptyString = Ok []
   /\ Forall no_marker []
   /\ fst (parse_clearance_csv EmptyString empty_world) = Ok []
   /\ fst (run empty_world) = 1
   /\ files (snd (run empty_world)) output_path = None)
  /\ (bare_CR_csv <> EmptyString
      /\ Py.contains "Item#" bare_CR_csv = false
      /\ Csv.reader bare_CR_csv
         = Raise (CsvError "new-line character seen in unquoted field")
      /\ fst (run (world_with (inl bare_CR_csv))) = 1
      /\ files (snd (run (world_with (inl bare_CR_csv)))) output_path = None).
Proof.
  split.
  - repeat split. constructor.
  - split; [discriminate |]. repeat split; vm_compute; reflexivity.
Qed.

(** ** When the CSV reader fails *)

Module CsvFacts.
Import Csv.

Lemma length_append_char (s : string) (c : ascii) :
  String.length (s ++ String c EmptyString) = S (String.length s).
Proof. induction s as [|a s IH]; simpl; [reflexivity | now rewrite IH]. Qed.

Lemma parse_add_char_room (st : ParserState) (fs : list string) (f : string)
    (c : ascii) :
  room (mkReader st fs f) ->
  forall st',
    parse_add_char (mkReader st' fs f) c
    = Ok (mkReader st' fs (f ++ String c EmptyString)).
Proof.
  unfold room, parse_add_char. cbn [state fields field]. intros H st'.
  destruct (field_limit <=? N.of_nat (String.length f))%N eqn:E;
    [| reflexivity].
  apply N.leb_le in E. lia.
Qed.

(** An ordinary character, in a settled reader with room in the field:
    the parser goes on, settled, with at most one more character held. *)
Lemma step_char (rd : Reader) (c : ascii) :
  settled rd -> room rd -> c <> CR -> c <> LF ->
  exists rd',
    parse_process_char rd (Some c) = Ok rd'
    /\ settled rd'
    /\ (String.length (field rd') <= S (String.length (field rd)))%nat.
Proof.
  intros Hs Hroom Hcr Hlf.
  assert (is_newline c = false) as Hnl.
  { unfold is_newline. apply orb_false_iff.
    split; now apply Ascii.eqb_neq. }
  destruct rd as [st fs f]. unfold settled in *. cbn [state] in Hs.
  pose proof (parse_add_char_room _ _ _ c Hroom) as Hadd.
  destruct st; try contradiction;
    unfold parse_process_char, start_field; cbn [state]; rewrite ?Hnl;
    repeat match goal with
           | |- context [Ascii.eqb c ?x] => destruct (Ascii.eqb c x)
           end;
    unfold set_state, parse_save_field, rbind;
    cbn [state fields field]; rewrite ?Hadd;
    eexists; (split; [reflexivity |]);
    unfold settled; cbn [state field];
    rewrite ?length_append_char; (split; [discriminate | simpl; lia]).
Qed.

(** The end of a line never fails; it leaves the reader at the start of a
    record, or inside a quoted field with the field as it was. *)
Lemma step_EOL (rd : Reader) :
  exists rd',
    parse_process_char rd None = Ok rd'
    /\ settled rd'
    /\ (is_start_record (state rd') = false -> field rd' = field rd).
Proof.
  destruct rd as [st fs f].
  destruct st; unfold parse_process_char, start_field; cbn [state];
    eexists; (split; [reflexivity |]);
    unfold settled, set_state, parse_save_field; cbn [state field];
    (split; [discriminate | simpl; congruence]).
Qed.

(** A line feed and the end of its line. *)
Lemma step_LF (rd : Reader) :
  settled rd -> room rd ->
  exists rd',
    process_line (String LF EmptyString) rd = Ok rd'
    /\ settled rd'
    /\ (is_start_record (state rd') = false ->
        (String.length (field rd') <= S (String.length (field rd)))%nat).
Proof.
  intros Hs Hroom.
  destruct rd as [st fs f]. unfold settled in *. cbn [state] in Hs.
  pose proof (parse_add_char_room _ _ _ LF Hroom) as Hadd.
  destruct st; try contradiction;
    unfold process_line, parse_process_char, start_field; cbn [state];
    change (is_newline LF) with true; change (Ascii.eqb LF quotechar) with false;
    cbv iota; unfold set_state, parse_save_field, rbind;
    cbn [state fields field]; rewrite ?Hadd; cbn [state fields field];
    eexists; (split; [reflexivity |]);
    unfold settled; cbn [state field is_start_record];
    rewrite ?length_append_char; (split; [discriminate | intros; simpl; lia]).
Qed.

Lemma read_rows_end (rd : Reader) (rows : list (list string)) :
  exists r, read_rows [] rd rows = Ok r.
Proof.
  simpl. destruct (Py.truthy (field rd) || is_in_quoted_field (state rd));
    eexists; reflexivity.
Qed.

(** Without a carriage return, and with no more characters than one field
    may hold, the reader reads the text through. *)
Lemma read_rows_succeeds (s : string) :
  no_CR s ->
  forall rd rows,
    settled rd ->
    (N.of_nat (String.length (field rd) + String.length s) <= field_limit)%N ->
    exists r, read_rows (readlines s) rd rows = Ok r.
Proof.
  induction s as [|c s IH]; intros Hcr rd rows Hs Hlen.
  - apply read_rows_end.
  - assert (c <> CR) as Hc by (intros ->; apply Hcr; now left).
    assert (no_CR s) as Hcr' by (intros Hin; apply Hcr; now right).
    assert (room rd) as Hroom by (unfold room; simpl in Hlen; lia).
    simpl readlines. destruct (Ascii.eqb c LF) eqn:E.
    + apply Ascii.eqb_eq in E. subst c.
      destruct (step_LF rd Hs Hroom) as [rd' [Hline [Hs' Hf]]].
      cbn [read_rows]. rewrite Hline. cbn [rbind].
      destruct (is_start_record (state rd')) eqn:Hst.
      * apply (IH Hcr'); [discriminate |].
        cbn [parse_reset field String.length]. simpl in Hlen. lia.
      * apply (IH Hcr'); [exact Hs' |].
        specialize (Hf eq_refl). simpl in Hlen. lia.
    + apply Ascii.eqb_neq in E.
      destruct (step_char rd c Hs Hroom Hc E) as [rd' [Hstep [Hs' Hf]]].
      destruct (readlines s) as [|l ls] eqn:Hl.
      * cbn [read_rows process_line]. rewrite Hstep. cbn [rbind].
        destruct (step_EOL rd') as [rd2 [Heol _]]. rewrite Heol. cbn [rbind].
        destruct (is_start_record (state rd2)); apply read_rows_end.
      * assert (exists r, read_rows (l :: ls) rd' rows = Ok r) as Hrest.
        { apply (IH Hcr'); [exact Hs' |]. simpl in Hlen. lia. }
        cbn [read_rows process_line] in *. rewrite Hstep. exact Hrest.
Qed.

(** The reader raises nothing but its own error. *)
Lemma parse_add_char_raises (rd : Reader) (c : ascii) (e : Exn) :
  parse_add_char rd c = Raise e -> exists msg, e = CsvError msg.
Proof.
  unfold parse_add_char.
  destruct (field_limit <=? N.of_nat (String.length (field rd)))%N;
    [| discriminate].
  intros H. injection H as <-. now eexists.
Qed.

Lemma parse_process_char_raises (rd : Reader) (c : option ascii) (e : Exn) :
  parse_process_char rd c = Raise e -> exists msg, e = CsvError msg.
Proof.
  unfold parse_process_char, start_field, rbind, set_state, parse_save_field.
  destruct (state rd), c as [ch |]; try discriminate;
    repeat match goal with
           | |- context [if ?b then _ else _] => destruct b
           end;
    try discriminate;
    try (intros H; injection H as <-; now eexists);
    match goal with
    | |- context [parse_add_char ?r ?x] =>
        destruct (parse_add_char r x) eqn:E; [discriminate |];
        intros H; injection H as <-;
        exact (parse_add_char_raises _ _ _ E)
    end.
Qed.

Lemma process_line_raises (line : string) :
  forall rd e,
    process_line line rd = Raise e -> exists msg, e = CsvError msg.
Proof.
  induction line as [|c line IH]; intros rd e; simpl.
  - apply parse_process_char_raises.
  - destruct (parse_process_char rd (Some c)) as [rd' | e'] eqn:E; cbn [rbind].
    + apply IH.
    + intros H. injection H as <-.
      exact (parse_process_char_raises _ _ _ E).
Qed.

Lemma read_rows_raises (lines : list string) :
  forall rd rows e,
    read_rows lines rd rows = Raise e -> exists msg, e = CsvError msg.
Proof.
  induction lines as [|line lines IH]; intros rd rows e; simpl.
  - destruct (_ || _); discriminate.
  - destruct (process_line line rd) as [rd' | e'] eqn:E; cbn [rbind].
    + destruct (is_start_record (state rd')); apply IH.
    + intros H. injection H as <-. exact (process_line_raises _ _ _ E).
Qed.

Lemma reader_raises (content : string) (e : Exn) :
  reader content = Raise e -> exists msg, e = CsvError msg.
Proof. apply read_rows_raises. Qed.

Lemma reader_succeeds (content : string) :
  no_CR content ->
  (N.of_nat (String.length content) <= field_limit)%N ->
  exists rows, reader content = Ok rows.
Proof.
  intros Hcr Hlen. unfold reader.
  apply read_rows_succeeds; [exact Hcr | discriminate | exact Hlen].
Qed.

End CsvFacts.

(** ** Totality of the parse *)

Lemma row_product_defaults (row : list string) (k cat sub : string) :
  defaults_ok row (row_product row k cat sub (row_spec_url row)).
Proof.
  unfold defaults_ok. cbn [row_product description wattage notes spec_url].
  repeat split.
  - intros H. apply Nat.ltb_ge in H. now rewrite H.
  - intros H. apply Nat.ltb_ge in H. now rewrite H.
  - unfold quantities, quantity_columns. cbn [row_product ontario louisville
      phoenix dallas chicago total].
    repeat (constructor; [apply quantity_ok_parse_int |]). constructor.
  - intros H. apply Nat.ltb_ge in H. now rewrite H.
  - intros H. unfold row_spec_url. apply Nat.ltb_ge in H. now rewrite H.
Qed.

(** C10, as the code has it.  [parse_clearance_csv] ends on every input
    string, and the only exception it lets out is the CSV reader's own: it
    returns a list of products whenever the reader yields rows, which it
    does for every text without a carriage return and of at most 131072
    characters.  The row loop never raises: every index is under its guard,
    rows with fewer than two cells are skipped, and the absent columns and
    unreadable numbers of a product row give the defaults, the empty string
    and 0. *)
Theorem parse_clearance_csv_total :
  (forall content w,
      (exists ps w', parse_clearance_csv content w = (Ok ps, w'))
      \/ (exists msg,
             Csv.reader content = Raise (CsvError msg)
             /\ parse_clearance_csv content w = (Raise (CsvError msg), w)))
  /\ (forall content w,
         no_CR content ->
         (N.of_nat (String.length content) <= Csv.field_limit)%N ->
         exists ps w', parse_clearance_csv content w = (Ok ps, w'))
  /\ (forall rows st, exists st', run_loop rows st = Ok st')
  /\ (forall st row, (List.length row < 2)%nat -> loop_body st row = Ok st)
  /\ (forall content w ps w' p,
         parse_clearance_csv content w = (Ok ps, w') -> In p ps ->
         exists rows row,
           Csv.reader content = Ok rows /\ In row rows /\ defaults_ok row p).
Proof.
  assert (forall content w rows,
             Csv.reader content = Ok rows ->
             exists ps w', parse_clearance_csv content w = (Ok ps, w'))
    as Hrows.
  { intros content w rows Hr. rewrite parse_clearance_csv_eq, Hr.
    destruct (parse_rows rows) as [ps |]; eexists _, _; reflexivity. }
  split; [| split; [| split; [| split]]].
  - intros content w. destruct (Csv.reader content) as [rows | e] eqn:Hr.
    + left. now apply (Hrows content w rows).
    + right. destruct (CsvFacts.reader_raises content e Hr) as [msg ->].
      exists msg. split; [reflexivity |].
      now rewrite parse_clearance_csv_eq, Hr.
  - intros content w Hcr Hlen.
    destruct (CsvFacts.reader_succeeds content Hcr Hlen) as [rows Hr].
    now apply (Hrows content w rows).
  - intros rows st. eexists. apply run_loop_eq.
  - intros st row Hlen. now rewrite loop_body_eq, process_row_short.
  - intros content w ps w' p H Hin.
    destruct (parse_clearance_csv_emitted _ _ _ _ _ H Hin)
      as [rows [row [Hr [Hrow [cat [sub [_ [_ ->]]]]]]]].
    exists rows, row. split; [exact Hr |]. split; [exact Hrow |].
    apply row_product_defaults.
Qed.

Lemma parse_clearance_csv_total_witness :
  no_CR lf_csv
  /\ (N.of_nat (String.length lf_csv) <= Csv.field_limit)%N
  /\ exists ps w', parse_clearance_csv lf_csv sample_world = (Ok ps, w').
Proof.
  assert (no_CR lf_csv) as Hcr.
  { unfold no_CR. vm_compute. intuition discriminate. }
  assert (N.of_nat (String.length lf_csv) <= Csv.field_limit)%N as Hlen
    by (vm_compute; discriminate).
  split; [exact Hcr |]. split; [exact Hlen |].
  exact (proj1 (proj2 parse_clearance_csv_total) lf_csv sample_world Hcr Hlen).
Defined.

(** C10 as stated fails: on a line with a carriage return outside quotes
    and more text after it, the CSV reader raises its error and
    [parse_clearance_csv] lets it out. *)
Lemma bare_CR_raises :
  ~ (forall content w, exists ps w',
        parse_clearance_csv content w = (Ok ps, w')).
Proof.
  intros Hall. destruct (Hall bare_CR_csv sample_world) as [ps [w' E]].
  vm_compute in E. discriminate E.
Qed.

(** * Further properties of the script *)

(** ** [map_category] *)

Lemma map_category_loop_range (items : list (string * string)) (X : string) :
  map_category_loop items X = X
  \/ In (map_category_loop items X) (map snd items).
Proof.
  induction items as [|[key value] items IH]; simpl; [now left |].
  destruct (Py.contains (Py.lower key) (Py.lower X)).
  - right. now left.
  - destruct IH as [IH | IH]; [now left | right; now right].
Qed.

(** X1. Normalising twice is normalising once: every canonical name of
    [CATEGORY_MAP] is mapped to itself, so [map_category] is idempotent. *)
Theorem map_category_idempotent (X : string) :
  map_category (map_category X) = map_category X.
Proof.
  destruct (map_category_loop_range CATEGORY_MAP X) as [H | H];
    fold (map_category X) in H.
  - now rewrite H.
  - simpl in H.
    repeat (destruct H as [H | H]; [rewrite <- H; reflexivity |]).
    destruct H.
Qed.

Lemma map_category_loop_case (items : list (string * string)) (X Y : string) :
  Py.lower X = Py.lower Y ->
  map_category_loop items X = map_category_loop items Y
  \/ (map_category_loop items X = X /\ map_category_loop items Y = Y).
Proof.
  intros H. induction items as [|[key value] items IH]; simpl.
  - right. now split.
  - rewrite <- H.
    destruct (Py.contains (Py.lower key) (Py.lower X)); [now left | exact IH].
Qed.

(** X2. The case of the letters of a label does not matter to the match:
    two labels that differ only in case get the same canonical name, or
    both match no alias and are returned as they are. *)
Theorem map_category_ignores_case (X Y : string) :
  Py.lower X = Py.lower Y ->
  map_category X = map_category Y
  \/ (map_category X = X /\ map_category Y = Y).
Proof. apply map_category_loop_case. Qed.

Lemma map_category_ignores_case_witness :
  Py.lower "AREA LIGHTS" = Py.lower "Area lights"
  /\ (map_category "AREA LIGHTS" = map_category "Area lights"
      \/ (map_category "AREA LIGHTS" = "AREA LIGHTS"
          /\ map_category "Area lights" = "Area lights")).
Proof.
  split; [reflexivity |].
  exact (map_category_ignores_case "AREA LIGHTS" "Area lights" eq_refl).
Defined.

Lemma contains_longer (a b s : string) :
  Py.contains (a ++ b) s = true -> Py.contains a s = true.
Proof.
  rewrite !PyFacts.contains_spec. intros [pre [post ->]].
  exists pre, (b ++ post)%string. f_equal.
  induction a as [|c a IH]; simpl; [reflexivity | now rewrite IH].
Qed.

(** X3. The alias [AL2N] never decides: [AL2] stands before it and occurs
    in every label in which [AL2N] occurs, so the mapping without the item
    [AL2N] gives the same category for every label. *)
Theorem alias_AL2N_is_shadowed (X : string) :
  map_category_loop CATEGORY_MAP_without_AL2N X = map_category X.
Proof.
  unfold map_category.
  change CATEGORY_MAP_without_AL2N
    with (firstn 2 CATEGORY_MAP ++ skipn 3 CATEGORY_MAP).
  unfold CATEGORY_MAP. cbn [firstn skipn app map_category_loop].
  destruct (Py.contains (Py.lower "Area Light") (Py.lower X));
    [reflexivity |].
  destruct (Py.contains (Py.lower "AL2") (Py.lower X)) eqn:E2;
    [reflexivity |].
  destruct (Py.contains (Py.lower "AL2N") (Py.lower X)) eqn:E3;
    [| reflexivity].
  apply (contains_longer "al2" "n") in E3.
  change (Py.lower "AL2") with "al2" in E2. congruence.
Qed.

(** ** [parse_int] *)

Lemma strip_commas_spaces_app (a b : string) :
  strip_commas_spaces (a ++ b)
  = (strip_commas_spaces a ++ strip_commas_spaces b)%string.
Proof.
  induction a as [|c a IH]; simpl; [reflexivity |].
  destruct (Ascii.eqb c ","%char || Py.isspace c); simpl; now rewrite IH.
Qed.

(** X4. [parse_int] reads back what [str] prints: [parse_int(str(n)) = n]
    for every integer [n], negative ones included, of at most 4300 digits
    (the length up to which the interpreter converts in its default
    setting). *)
Theorem parse_int_reads_str (n : Z) :
  Z.abs n < 10 ^ 4300 -> parse_int (PyInt.str_of_int n) = n.
Proof. intros _. apply PyIntFacts.parse_int_str_of_int. Qed.

Lemma parse_int_reads_str_witness :
  Z.abs (-1229) < 10 ^ 4300 /\ parse_int (PyInt.str_of_int (-1229)) = -1229.
Proof.
  assert (Z.abs (-1229) < 10 ^ 4300) as H.
  { apply Z.lt_le_trans with (10 ^ 4); [reflexivity |].
    apply Z.pow_le_mono_r; lia. }
  split; [exact H | exact (parse_int_reads_str (-1229) H)].
Defined.

(** X5. A comma or a whitespace character anywhere in the text, at the ends
    or between digits, does not change the value read. *)
Theorem parse_int_ignores_separator (a b : string) (c : ascii) :
  separator c = true ->
  parse_int (a ++ String c b) = parse_int (a ++ b).
Proof.
  intros Hc. rewrite !parse_int_eq, !strip_commas_spaces_app.
  unfold separator in Hc. simpl. now rewrite Hc.
Qed.

Lemma parse_int_ignores_separator_witness :
  separator ","%char = true /\ parse_int ("1" ++ ",234") = parse_int ("1" ++ "234").
Proof.
  split; [reflexivity |].
  exact (parse_int_ignores_separator "1" "234" ","%char eq_refl).
Defined.

Lemma strip_commas_spaces_keeps (s : string) (c : ascii) :
  In c (list_ascii_of_string s) -> separator c = false ->
  In c (list_ascii_of_string (strip_commas_spaces s)).
Proof.
  unfold separator. intros Hin Hc. induction s as [|d s IH]; [exact Hin |].
  simpl in *. destruct Hin as [-> | Hin].
  - rewrite Hc. now left.
  - destruct (Ascii.eqb d ","%char || Py.isspace d); [now apply IH |].
    right. now apply IH.
Qed.

Lemma int_digits_bad_char (t : string) (c : ascii) :
  In c (list_ascii_of_string t) ->
  PyInt.is_digit c = false -> Ascii.eqb c PyInt.underscore = false ->
  forall prev acc, PyInt.int_digits t prev acc = None.
Proof.
  intros Hin Hd Hu. induction t as [|d t IH]; [destruct Hin |].
  intros prev acc. simpl in *. destruct Hin as [-> | Hin].
  - now rewrite Hd, Hu.
  - destruct (PyInt.is_digit d); [now apply IH |].
    destruct (Ascii.eqb d PyInt.underscore && prev); [now apply IH |].
    reflexivity.
Qed.

(** X6. One character that is neither a digit, an underscore, a sign, a
    comma nor whitespace makes the whole cell read as 0: a decimal point, a
    letter, a currency sign. *)
Theorem parse_int_rejects_foreign_char (s : string) (c : ascii) :
  In c (list_ascii_of_string s) ->
  separator c = false -> literal_char c = false ->
  parse_int s = 0.
Proof.
  intros Hin Hsep Hlit. rewrite parse_int_eq.
  pose proof (strip_commas_spaces_keeps s c Hin Hsep) as Hc.
  unfold literal_char in Hlit.
  apply orb_false_iff in Hlit as [Hlit Hminus].
  apply orb_false_iff in Hlit as [Hlit Hplus].
  apply orb_false_iff in Hlit as [Hd Hu].
  destruct (strip_commas_spaces s) as [|d t]; [reflexivity |].
  unfold PyInt.int_of_str.
  destruct (Ascii.eqb d "+"%char) eqn:Ed.
  - apply Ascii.eqb_eq in Ed. subst d. destruct Hc as [<- | Hc];
      [discriminate Hplus |].
    now rewrite (int_digits_bad_char t c Hc Hd Hu).
  - destruct (Ascii.eqb d "-"%char) eqn:Em.
    + apply Ascii.eqb_eq in Em. subst d. destruct Hc as [<- | Hc];
        [discriminate Hminus |].
      now rewrite (int_digits_bad_char t c Hc Hd Hu).
    + now rewrite (int_digits_bad_char (String d t) c Hc Hd Hu).
Qed.

Lemma parse_int_rejects_foreign_char_witness :
  In "."%char (list_ascii_of_string "12.5")
  /\ separator "."%char = false /\ literal_char "."%char = false
  /\ parse_int "12.5" = 0.
Proof.
  assert (In "."%char (list_ascii_of_string "12.5")) as Hin
    by (right; right; left; reflexivity).
  split; [exact Hin |]. split; [reflexivity |]. split; [reflexivity |].
  exact (parse_int_rejects_foreign_char "12.5" "."%char Hin eq_refl eq_refl).
Defined.

Lemma int_of_str_unsigned (t : string) :
  Py.startswith "+" t = false -> Py.startswith "-" t = false ->
  PyInt.int_of_str t = PyInt.int_digits t false 0.
Proof.
  destruct t as [|c t]; [reflexivity |].
  cbn [Py.startswith]. unfold PyInt.int_of_str.
  rewrite !andb_true_r, (Ascii.eqb_sym "+"%char c), (Ascii.eqb_sym "-"%char c).
  now intros -> ->.
Qed.

(** X7. A minus sign in front negates the value and a plus sign leaves it,
    for every text that does not itself begin with a sign once commas and
    whitespace are removed. *)
Theorem parse_int_sign (s : string) :
  Py.startswith "+" (strip_commas_spaces s) = false ->
  Py.startswith "-" (strip_commas_spaces s) = false ->
  parse_int (String "-" s) = - parse_int s
  /\ parse_int (String "+" s) = parse_int s.
Proof.
  intros Hp Hm. rewrite !parse_int_eq, (int_of_str_unsigned _ Hp Hm).
  change (strip_commas_spaces (String "-" s))
    with (String "-"%char (strip_commas_spaces s)).
  change (strip_commas_spaces (String "+" s))
    with (String "+"%char (strip_commas_spaces s)).
  change (PyInt.int_of_str (String "-" (strip_commas_spaces s)))
    with (option_map Z.opp
            (PyInt.int_digits (strip_commas_spaces s) false 0)).
  change (PyInt.int_of_str (String "+" (strip_commas_spaces s)))
    with (PyInt.int_digits (strip_commas_spaces s) false 0).
  destruct (PyInt.int_digits (strip_commas_spaces s) false 0);
    simpl; split; reflexivity.
Qed.

Lemma parse_int_sign_witness :
  parse_int "-1,229" = - parse_int "1,229"
  /\ parse_int "+1,229" = parse_int "1,229".
Proof. exact (parse_int_sign "1,229" eq_refl eq_refl). Defined.

Lemma digit_not_sign (c : ascii) :
  PyInt.is_digit c = true ->
  Ascii.eqb c "+"%char = false /\ Ascii.eqb c "-"%char = false
  /\ Ascii.eqb c PyInt.underscore = false
  /\ (Ascii.eqb c ","%char || Py.isspace c) = false.
Proof.
  intros H.
  assert (forall x, PyInt.is_digit x = false -> Ascii.eqb c x = false) as Hne.
  { intros x Hx. apply Ascii.eqb_neq. intros ->. congruence. }
  repeat split; try (apply Hne; reflexivity).
  apply orb_false_iff. split; [apply Hne; reflexivity |].
  unfold PyInt.is_digit in H. apply andb_true_iff in H as [Hlo Hhi].
  apply N.leb_le in Hlo, Hhi. unfold Py.isspace. cbv zeta.
  repeat (apply orb_false_iff; split);
    try (apply andb_false_iff);
    try (apply N.eqb_neq; lia).
  - right. apply N.leb_gt. lia.
  - right. apply N.leb_gt. lia.
Qed.

Lemma strip_commas_spaces_digits (d rest : string) :
  all_digits d = true ->
  strip_commas_spaces (d ++ rest) = (d ++ strip_commas_spaces rest)%string.
Proof.
  induction d as [|c d IH]; intros H; [reflexivity |].
  simpl in H. apply andb_true_iff in H as [Hc Hd].
  destruct (digit_not_sign c Hc) as [_ [_ [_ Hsep]]].
  simpl. now rewrite Hsep, IH.
Qed.

Lemma strip_commas_spaces_all_digits (d : string) :
  all_digits d = true -> strip_commas_spaces d = d.
Proof.
  induction d as [|c d IH]; intros H; [reflexivity |].
  simpl in H. apply andb_true_iff in H as [Hc Hd].
  destruct (digit_not_sign c Hc) as [_ [_ [_ Hsep]]].
  simpl. now rewrite Hsep, IH.
Qed.

(** A run of digits is read through, whatever follows. *)
Lemma int_digits_cons_digit (c : ascii) (t : string) (prev : bool) (acc : Z) :
  PyInt.is_digit c = true ->
  PyInt.int_digits (String c t) prev acc
  = PyInt.int_digits t true (10 * acc + PyInt.digit_value c).
Proof. intros H. simpl. now rewrite H. Qed.

Lemma int_digits_run (d : string) :
  all_digits d = true ->
  forall c prev acc rest,
    PyInt.is_digit c = true ->
    PyInt.int_digits (String c (d ++ rest)) prev acc
    = PyInt.int_digits rest true (digits_value acc (String c d)).
Proof.
  induction d as [|c' d IH]; intros H c prev acc rest Hc.
  - now rewrite int_digits_cons_digit.
  - simpl in H. apply andb_true_iff in H as [Hc' Hd].
    rewrite int_digits_cons_digit by exact Hc.
    cbn [append]. now rewrite (IH Hd c' true _ rest Hc').
Qed.

Lemma int_digits_whole (d : string) :
  all_digits d = true ->
  forall c prev acc,
    PyInt.is_digit c = true ->
    PyInt.int_digits (String c d) prev acc
    = Some (digits_value acc (String c d)).
Proof.
  induction d as [|c' d IH]; intros H c prev acc Hc.
  - now rewrite int_digits_cons_digit.
  - simpl in H. apply andb_true_iff in H as [Hc' Hd].
    rewrite int_digits_cons_digit by exact Hc.
    now rewrite (IH Hd c' true _ Hc').
Qed.

Lemma int_digits_underscore (t : string) (acc : Z) :
  PyInt.int_digits (String PyInt.underscore t) true acc
  = PyInt.int_digits t false acc.
Proof. reflexivity. Qed.

Lemma int_digits_trailing_underscore (t : string) :
  forall prev acc, PyInt.int_digits (t ++ "_") prev acc = None.
Proof.
  induction t as [|c t IH]; intros prev acc; simpl.
  - now destruct prev.
  - destruct (PyInt.is_digit c); [apply IH |].
    destruct (Ascii.eqb c PyInt.underscore && prev); [apply IH | reflexivity].
Qed.

Lemma int_digits_double_underscore (t u : string) :
  forall prev acc, PyInt.int_digits (t ++ "__" ++ u) prev acc = None.
Proof.
  induction t as [|c t IH]; intros prev acc; simpl.
  - now destruct prev.
  - destruct (PyInt.is_digit c); [apply IH |].
    destruct (Ascii.eqb c PyInt.underscore && prev); [apply IH | reflexivity].
Qed.

Lemma int_of_str_none_from_digits (t : string) :
  (forall prev acc, PyInt.int_digits t prev acc = None) ->
  (forall c t', t = String c t' -> c = "+"%char \/ c = "-"%char ->
                forall prev acc, PyInt.int_digits t' prev acc = None) ->
  PyInt.int_of_str t = None.
Proof.
  intros H Htail. destruct t as [|c t']; [reflexivity |].
  unfold PyInt.int_of_str.
  destruct (Ascii.eqb c "+"%char) eqn:Ep.
  - apply Ascii.eqb_eq in Ep. apply (Htail c t' eq_refl). now left.
  - destruct (Ascii.eqb c "-"%char) eqn:Em; [| apply H].
    apply Ascii.eqb_eq in Em. rewrite (Htail c t' eq_refl); [reflexivity |].
    now right.
Qed.

(** X8. An underscore is taken as a digit separator, as [int] takes it: one
    underscore between two runs of digits does not change the value, while
    a text that begins or ends with an underscore, or holds two in a row,
    reads as 0. *)
Theorem parse_int_underscores :
  (forall d1 d2,
      all_digits d1 = true -> d1 <> EmptyString ->
      all_digits d2 = true -> d2 <> EmptyString ->
      parse_int (d1 ++ "_" ++ d2) = parse_int (d1 ++ d2))
  /\ (forall s, parse_int (String "_" s) = 0)
  /\ (forall s, parse_int (s ++ "_") = 0)
  /\ (forall a b, parse_int (a ++ "__" ++ b) = 0).
Proof.
  split; [| split; [| split]].
  - intros d1 d2 H1 N1 H2 N2. rewrite !parse_int_eq.
    rewrite (strip_commas_spaces_digits d1 ("_" ++ d2) H1).
    change (strip_commas_spaces ("_" ++ d2))
      with (String PyInt.underscore (strip_commas_spaces d2)).
    rewrite (strip_commas_spaces_digits d1 d2 H1),
      (strip_commas_spaces_all_digits d2 H2).
    destruct d1 as [|c1 d1]; [congruence |].
    destruct d2 as [|c2 d2]; [congruence |].
    simpl in H1, H2.
    apply andb_true_iff in H1 as [Hc1 H1], H2 as [Hc2 H2].
    destruct (digit_not_sign c1 Hc1) as [Hp [Hm _]].
    destruct (digit_not_sign c2 Hc2) as [_ [_ [Hu2 _]]].
    cbn [append strip_commas_spaces]. unfold PyInt.int_of_str.
    rewrite Hp, Hm.
    rewrite !(int_digits_run d1 H1 c1 false 0 _ Hc1).
    rewrite int_digits_underscore.
    now rewrite !(int_digits_whole d2 H2 c2 _ _ Hc2).
  - intros s. rewrite parse_int_eq. reflexivity.
  - intros s. rewrite parse_int_eq, strip_commas_spaces_app.
    change (strip_commas_spaces "_") with "_".
    rewrite int_of_str_none_from_digits; [reflexivity | |].
    + apply int_digits_trailing_underscore.
    + intros c t' E Hsign.
      destruct (strip_commas_spaces s) as [|c0 t0]; simpl in E.
      * injection E as <- _. destruct Hsign; discriminate.
      * injection E as _ <-. apply int_digits_trailing_underscore.
  - intros a b. rewrite parse_int_eq, !strip_commas_spaces_app.
    change (strip_commas_spaces ("__" ++ b))
      with ("__" ++ strip_commas_spaces b)%string.
    rewrite int_of_str_none_from_digits; [reflexivity | |].
    + apply int_digits_double_underscore.
    + intros c t' E Hsign.
      destruct (strip_commas_spaces a) as [|c0 t0]; simpl in E.
      * injection E as <- _. destruct Hsign; discriminate.
      * injection E as _ <-. apply int_digits_double_underscore.
Qed.

Lemma parse_int_underscores_witness :
  all_digits "1" = true /\ all_digits "000" = true
  /\ parse_int ("1" ++ "_" ++ "000") = parse_int ("1" ++ "000").
Proof.
  split; [reflexivity |]. split; [reflexivity |].
  apply (proj1 parse_int_underscores "1" "000");
    (reflexivity || discriminate).
Defined.

(** ** The row loop of [parse_clearance_csv] *)

Lemma lstrip_keeps_char (pre post : string) (c : ascii) :
  Py.isspace c = false ->
  exists pre', Py.lstrip (pre ++ String c post) = (pre' ++ String c post)%string.
Proof.
  intros Hc. induction pre as [|d pre IH]; simpl.
  - rewrite Hc. now exists EmptyString.
  - destruct (Py.isspace d); [exact IH |]. now exists (String d pre).
Qed.

Lemma rstrip_keeps_char (pre post : string) (c : ascii) :
  Py.isspace c = false -> Py.rstrip (pre ++ String c post) <> EmptyString.
Proof.
  intros Hc. induction pre as [|d pre IH]; simpl.
  - destruct (Py.rstrip post); [rewrite Hc |]; discriminate.
  - destruct (Py.rstrip (pre ++ String c post)); [contradiction | discriminate].
Qed.

(** A text that holds a character other than whitespace does not trim to
    the empty text. *)
Lemma strip_nonblank (pre post : string) (c : ascii) :
  Py.isspace c = false -> Py.strip (pre ++ String c post) <> EmptyString.
Proof.
  intros Hc. unfold Py.strip.
  destruct (lstrip_keeps_char pre post c Hc) as [pre' ->].
  now apply rstrip_keeps_char.
Qed.

Lemma marker_not_blank (c : string) :
  Py.contains "Item#" c = true -> Py.strip c <> EmptyString.
Proof.
  rewrite PyFacts.contains_spec. intros [pre [post ->]].
  apply (strip_nonblank pre ("tem#" ++ post) "I"%char). reflexivity.
Qed.

(** What a row adds to the products: nothing when it has no SKU, and else
    one product with the row's SKU, whose category comes from the category
    label in force. *)
Lemma process_row_sku (st : LoopState) (row : list string) :
  current_category (process_row st row)
  = (if row_is_category row then Py.strip (LF_to_space (Py.strip (cell row 0)))
     else current_category st)
  /\ if row_has_sku row
     then exists p,
            products (process_row st row) = products st ++ [p]
            /\ sku p = Py.strip (cell row 1)
            /\ subcategory p = current_subcategory (process_row st row)
            /\ category_from (current_category st) p
            /\ emitted_from row p
     else products (process_row st row) = products st.
Proof.
  unfold row_has_sku, row_is_category.
  destruct (2 <=? List.length row)%nat eqn:Hlen.
  - apply Nat.leb_le in Hlen. rewrite process_row_eq by exact Hlen.
    cbv zeta. cbn [andb].
    destruct (Py.truthy (Py.strip (cell row 0))) eqn:H0;
      destruct (Py.truthy (Py.strip (cell row 1))) eqn:H1;
      cbn [negb andb products current_category current_subcategory];
      (split; [reflexivity |]); try reflexivity;
      eexists; (split; [reflexivity |]); cbn [sku subcategory row_product];
      (split; [reflexivity |]); (split; [reflexivity |]);
      (split; [reflexivity |]);
      eexists _, _; (split; [exact Hlen |]);
      (split; [now apply truthy_true | reflexivity]).
  - apply Nat.leb_gt in Hlen. rewrite process_row_short by exact Hlen.
    now split.
Qed.

(** X9. Whatever stands above the header row, title lines or stray rows,
    has no effect on the result: the products are those of the loop run
    over the rows after the first row that holds the marker. *)
Theorem rows_before_header_ignored (content : string) (w : World)
    (pre : list (list string)) (hdr : list string)
    (rest : list (list string)) :
  Csv.reader content = Ok (pre ++ hdr :: rest) ->
  header_at pre hdr ->
  exists st,
    run_loop rest initial_loop = Ok st
    /\ parse_clearance_csv content w = (Ok (products st), w).
Proof.
  intros Hr Hhdr. exists (fold_left process_row rest initial_loop).
  split; [apply run_loop_eq |].
  apply (parse_clearance_csv_rows content w _ _ Hr).
  now apply parse_rows_located.
Qed.

Lemma rows_before_header_ignored_witness :
  Csv.reader sample_csv = Ok sample_rows
  /\ exists st,
       run_loop (skipn 2 sample_rows) initial_loop = Ok st
       /\ parse_clearance_csv sample_csv sample_world
          = (Ok (products st), sample_world).
Proof.
  assert (Csv.reader sample_csv = Ok sample_rows) as Hr
    by (vm_compute; reflexivity).
  split; [exact Hr |].
  apply (rows_before_header_ignored sample_csv sample_world
           (firstn 1 sample_rows) (nth 1 sample_rows []) (skipn 2 sample_rows)).
  - exact Hr.
  - split; [repeat constructor | reflexivity].
Defined.

(** X10. The loop does not know the header row: a row after it whose
    second cell holds the marker again, a repeated header line, is emitted
    as a product with that cell as its [sku]. *)
Theorem marker_row_in_loop_is_product (st : LoopState) (row : list string) :
  is_header_row row = true ->
  exists st' p,
    loop_body st row = Ok st'
    /\ products st' = products st ++ [p]
    /\ sku p = Py.strip (cell row 1).
Proof.
  intros H. unfold is_header_row in H.
  apply andb_true_iff in H as [Hlen Hm].
  apply Nat.ltb_lt in Hlen.
  assert (Py.contains "Item#" (cell row 1) = true) as Hc.
  { apply orb_true_iff in Hm as [Hm | Hm];
      [now apply marker_in_long_form | exact Hm]. }
  apply marker_not_blank, truthy_true in Hc.
  destruct (process_row_sku st row) as [_ Hp].
  unfold row_has_sku in Hp. rewrite Hc in Hp.
  assert ((2 <=? List.length row)%nat = true) as Hle
    by (apply Nat.leb_le; lia).
  rewrite Hle in Hp. cbn [andb] in Hp.
  destruct Hp as [p [Hprod [Hsku _]]].
  exists (process_row st row), p. split; [apply loop_body_eq |].
  now split.
Qed.

Lemma marker_row_in_loop_is_product_witness :
  exists st' p,
    loop_body initial_loop ["Category"; "Item# / SKU"; "Description"] = Ok st'
    /\ products st' = [] ++ [p]
    /\ sku p = "Item# / SKU".
Proof.
  exact (marker_row_in_loop_is_product initial_loop
           ["Category"; "Item# / SKU"; "Description"] eq_refl).
Defined.

Lemma process_row_skipped (st : LoopState) (row : list string) :
  row_is_skipped row = true -> process_row st row = st.
Proof.
  unfold row_is_skipped. intros H.
  destruct (List.length row <? 2)%nat eqn:Hlen.
  - apply Nat.ltb_lt in Hlen. now apply process_row_short.
  - apply Nat.ltb_ge in Hlen. cbn [orb] in H.
    rewrite process_row_eq by exact Hlen. cbv zeta. now rewrite H.
Qed.

(** X11. Rows with fewer than two cells and rows whose first two cells are
    blank change nothing, wherever they stand: the loop over the rows
    without them ends in the same state, with the same products. *)
Theorem skipped_rows_transparent (rows : list (list string)) (st : LoopState) :
  run_loop (filter (fun row => negb (row_is_skipped row)) rows) st
  = run_loop rows st.
Proof.
  rewrite !run_loop_eq. f_equal. revert st.
  induction rows as [|row rows IH]; intros st; [reflexivity |].
  cbn [filter]. destruct (row_is_skipped row) eqn:E; cbn [negb fold_left].
  - now rewrite (process_row_skipped st row E).
  - apply IH.
Qed.

Lemma fold_process_row_skus (rows : list (list string)) :
  forall st,
    map sku (products (fold_left process_row rows st))
    = map sku (products st)
      ++ map (fun row => Py.strip (cell row 1)) (filter row_has_sku rows).
Proof.
  induction rows as [|row rows IH]; intros st; cbn [fold_left filter].
  - now rewrite app_nil_r.
  - rewrite IH. destruct (process_row_sku st row) as [_ Hp].
    destruct (row_has_sku row).
    + destruct Hp as [p [-> [Hsku _]]].
      rewrite map_app, <- app_assoc. cbn [map app]. now rewrite Hsku.
    + now rewrite Hp.
Qed.

(** X12. The loop emits exactly one product for each row that has at least
    two cells and a non-blank SKU cell, in the order of the rows, with the
    trimmed SKU cell as its [sku]: no such row is dropped, merged or
    repeated. *)
Theorem skus_follow_rows (rows : list (list string)) (st : LoopState) :
  exists st',
    run_loop rows st = Ok st'
    /\ map sku (products st')
       = map sku (products st)
         ++ map (fun row => Py.strip (cell row 1)) (filter row_has_sku rows).
Proof.
  exists (fold_left process_row rows st).
  split; [apply run_loop_eq | apply fold_process_row_skus].
Qed.

Lemma fold_no_category_row (rows : list (list string)) :
  Forall (fun row => row_is_category row = false) rows ->
  forall st,
    current_category (fold_left process_row rows st) = current_category st
    /\ exists new,
         products (fold_left process_row rows st) = products st ++ new
         /\ Forall (category_from (current_category st)) new.
Proof.
  induction 1 as [|row rows Hrow _ IH]; intros st; cbn [fold_left].
  - split; [reflexivity |]. exists []. now rewrite app_nil_r.
  - destruct (process_row_sku st row) as [Hcat Hp]. rewrite Hrow in Hcat.
    destruct (IH (process_row st row)) as [Hcat' [new [Hnew Hall]]].
    rewrite Hcat in Hcat', Hall. split; [exact Hcat' |].
    rewrite Hnew. destruct (row_has_sku row).
    + destruct Hp as [p [-> [_ [_ [Hp _]]]]].
      exists (p :: new). rewrite <- app_assoc. split; [reflexivity |].
      now constructor.
    + rewrite Hp. now exists new.
Qed.

Lemma LF_to_space_not_empty (s : string) :
  s <> EmptyString -> LF_to_space s <> EmptyString.
Proof. destruct s; [congruence | discriminate]. Qed.

(** X13. A category label stays in force until the next category row: the
    products of every row between a category row and the next one, however
    many and whatever their subcategories, get the canonical name of that
    label. *)
Theorem category_carried_forward (st : LoopState) (c0 c1 : string)
    (rest : list string) (block : list (list string)) :
  Py.strip c0 <> EmptyString -> Py.strip c1 = EmptyString ->
  Forall (fun row => row_is_category row = false) block ->
  exists st' new,
    run_loop ((c0 :: c1 :: rest) :: block) st = Ok st'
    /\ products st' = products st ++ new
    /\ current_category st' = Py.strip (LF_to_space c0)
    /\ Forall (fun p => category p = map_category (Py.strip (LF_to_space c0)))
         new.
Proof.
  intros H0 H1 Hblock.
  set (label := Py.strip (LF_to_space c0)).
  assert (Py.truthy label = true) as Hlabel.
  { apply truthy_true. unfold label.
    rewrite StripFacts.strip_LF_to_space. now apply LF_to_space_not_empty. }
  destruct (fold_no_category_row block Hblock
              (mkLoop (products st) label EmptyString))
    as [Hcat [new [Hnew Hall]]].
  cbn [products current_category] in Hcat, Hnew, Hall.
  exists (fold_left process_row ((c0 :: c1 :: rest) :: block) st), new.
  split; [apply run_loop_eq |]. cbn [fold_left].
  rewrite process_row_category by assumption.
  rewrite StripFacts.strip_LF_strip. fold label.
  split; [exact Hnew |]. split; [exact Hcat |].
  apply Forall_impl with (2 := Hall).
  intros p Hp. unfold category_from in Hp. now rewrite Hlabel in Hp.
Qed.

Lemma category_carried_forward_witness :
  exists st' new,
    run_loop (skipn 2 sample_rows) initial_loop = Ok st'
    /\ products st' = [] ++ new
    /\ current_category st' = "Area Lights"
    /\ Forall (fun p => category p = "Area Light") new.
Proof.
  apply (category_carried_forward initial_loop "Area Lights" EmptyString
           (repeat EmptyString 10) (skipn 3 sample_rows)).
  - discriminate.
  - reflexivity.
  - repeat constructor.
Defined.

(** X14. When no category row occurs after the header row,
    [current_category] stays empty, after every row of the loop, and every
    product takes its category from its own subcategory label. *)
Theorem category_from_subcategory (content : string) (w : World)
    (pre : list (list string)) (hdr : list string)
    (rest : list (list string)) :
  Csv.reader content = Ok (pre ++ hdr :: rest) ->
  header_at pre hdr ->
  Forall (fun row => row_is_category row = false) rest ->
  (forall done todo, rest = done ++ todo ->
     exists st, run_loop done initial_loop = Ok st
                /\ current_category st = EmptyString)
  /\ exists ps,
       parse_clearance_csv content w = (Ok ps, w)
       /\ Forall (fun p => category p = map_category (subcategory p)) ps.
Proof.
  intros Hr Hhdr Hrest. split.
  - intros done todo ->. apply Forall_app in Hrest as [Hdone _].
    destruct (fold_no_category_row done Hdone initial_loop) as [Hcat _].
    exists (fold_left process_row done initial_loop).
    split; [apply run_loop_eq | exact Hcat].
  - destruct (fold_no_category_row rest Hrest initial_loop)
      as [_ [new [Hnew Hall]]].
    cbn [products current_category initial_loop app] in Hnew, Hall.
    exists new. split; [| exact Hall].
    apply (parse_clearance_csv_rows content w _ _ Hr).
    rewrite <- Hnew. now apply parse_rows_located.
Qed.

Lemma category_from_subcategory_witness :
  Csv.reader unlocated_csv
  = Ok [["Flood"; "AL2-150"]; [EmptyString; "AL2-200"]]
  /\ (forall done todo,
        [["Flood"; "AL2-150"]; [EmptyString; "AL2-200"]] = done ++ todo ->
        exists st, run_loop done initial_loop = Ok st
                   /\ current_category st = EmptyString)
  /\ exists ps,
       parse_clearance_csv ("x,Item#" ++ eol ++ unlocated_csv) sample_world
       = (Ok ps, sample_world)
       /\ Forall (fun p => category p = map_category (subcategory p)) ps.
Proof.
  split; [vm_compute; reflexivity |].
  apply (category_from_subcategory _ sample_world [] ["x"; "Item#"]
           [["Flood"; "AL2-150"]; [EmptyString; "AL2-200"]]).
  - vm_compute. reflexivity.
  - split; [constructor | reflexivity].
  - repeat constructor.
Defined.


Lemma trimmed_empty : trimmed EmptyString.
Proof. reflexivity. Qed.









(** ** [parse_clearance_csv], [fetch_sheet_csv] and [main] in the world *)

Lemma find_header_none (rows : list (list string)) :
  forall i,
    find_header rows i = None
    <-> Forall (fun row => is_header_row row = false) rows.
Proof.
  induction rows as [|row rows IH]; intros i; simpl.
  - split; [constructor | reflexivity].
  - destruct (is_header_row row) eqn:E.
    + split; [discriminate | intros H; inversion H; congruence].
    + rewrite IH. split; [now constructor | intros H; now inversion H].
Qed.

(** X16. [parse_clearance_csv] reads nothing of the world and changes
    nothing in it but the standard output: its result is the same in every
    world, and the world comes back as it was, except for the one line
    [Could not find header row], printed exactly when the reader yields
    rows none of which holds the marker; the result is then the empty
    list. *)
Theorem parse_clearance_csv_frame (content : string) (w : World) :
  (forall w2,
      fst (parse_clearance_csv content w2) = fst (parse_clearance_csv content w))
  /\ ((exists rows,
          Csv.reader content = Ok rows
          /\ Forall (fun row => is_header_row row = false) rows) ->
      parse_clearance_csv content w
      = (Ok [], mkWorld (urlopen w) (clock w) (ticks w)
                  (stdout w ++ ["Could not find header row"]) (files w)))
  /\ (~ (exists rows,
            Csv.reader content = Ok rows
            /\ Forall (fun row => is_header_row row = false) rows) ->
      snd (parse_clearance_csv content w) = w).
Proof.
  split; [| split].
  - intros w2. rewrite !parse_clearance_csv_eq.
    destruct (Csv.reader content) as [rows | e]; [| reflexivity].
    now destruct (parse_rows rows).
  - intros [rows [Hr Hrows]]. rewrite parse_clearance_csv_eq, Hr.
    unfold parse_rows.
    now rewrite (proj2 (find_header_none rows 0) Hrows).
  - intros Hno. rewrite parse_clearance_csv_eq.
    destruct (Csv.reader content) as [rows | e]; [| reflexivity].
    unfold parse_rows. destruct (find_header rows 0) as [i |] eqn:E;
      [reflexivity |].
    exfalso. apply Hno. exists rows. split; [reflexivity |].
    now apply (find_header_none rows 0).
Qed.

Lemma parse_clearance_csv_frame_witness :
  parse_clearance_csv headless_csv headless_world
  = (Ok [], mkWorld (urlopen headless_world) (clock headless_world)
              (ticks headless_world)
              (stdout headless_world ++ ["Could not find header row"])
              (files headless_world)).
Proof.
  apply (proj1 (proj2 (parse_clearance_csv_frame headless_csv headless_world))).
  exists [["Area Lights"; EmptyString]; [EmptyString; "AL2-100"; "Area light"]].
  split; [vm_compute; reflexivity | repeat constructor].
Defined.

(** What [run] does, case by case, from a world given by its parts. *)
Lemma run_unfold (net : string -> string + string) (clk : nat -> Instant)
    (tck : nat) (out : list string) (fs : string -> option Document) :
  run (mkWorld net clk tck out fs)
  = let out1 := (out ++ [("Starting clearance update at "
                           ++ isoformat (clk tck))%string])
                ++ [("Fetching clearance data (gid=" ++ GID ++ ")...")%string] in
    match net (export_url SHEET_ID GID) with
    | inr e =>
        (1, mkWorld net clk (S tck)
              ((out1 ++ [("Error fetching sheet (gid=" ++ GID ++ "): "
                          ++ e)%string])
               ++ ["Failed to fetch clearance data"]) fs)
    | inl content =>
        if Py.truthy content then
          match parse_clearance_csv content (mkWorld net clk (S tck) out1 fs)
          with
          | (Ok ps, w2) =>
              (0, mkWorld (urlopen w2) (clock w2) (S (S (ticks w2)))
                    (((stdout w2
                       ++ [("Parsed "
                            ++ PyInt.str_of_int (Z.of_nat (List.length ps))
                            ++ " clearance products")%string])
                      ++ [("Wrote " ++ output_path)%string])
                     ++ ["Update complete!"])
                    (fun p =>
                       if String.eqb p output_path
                       then Some (document_of (clock w2 (ticks w2))
                                    (clock w2 (S (ticks w2))) ps)
                       else files w2 p))
          | (Raise e, w2) => (1, w2)
          end
        else
          (1, mkWorld net clk (S tck)
                (out1 ++ ["Failed to fetch clearance data"]) fs)
    end.
Proof.
  unfold run, main.
  lazy beta iota zeta
    delta [bind now print ret fetch_sheet_csv urlopen clock ticks stdout files].
  destruct (net (export_url SHEET_ID GID)) as [content | e].
  - lazy beta iota zeta
      delta [bind ret negb urlopen clock ticks stdout files].
    destruct (Py.truthy content); [| reflexivity].
    lazy beta iota zeta delta [negb].
    destruct (parse_clearance_csv content _) as [[ps | e] [net2 clk2 tck2 out2 fs2]];
      reflexivity.
  - reflexivity.
Qed.

(** X17. When the fetch gives a non-empty text that parses to the products
    [ps], the run exits with status 0 and writes, at [clearance_data.json]
    and nowhere else, the document holding [ps], their number as count and
    the second and third readings of the clock as time stamps; it prints
    its two opening lines, the header warning if there is one, and its
    three closing lines. *)
Theorem run_writes_parsed_products (w : World) (content : string)
    (ps : list Product) :
  fetched w content ->
  fst (parse_clearance_csv content w) = Ok ps ->
  fst (run w) = 0
  /\ files (snd (run w)) output_path
     = Some (document_of (clock w (S (ticks w))) (clock w (S (S (ticks w)))) ps)
  /\ (forall p, p <> output_path -> files (snd (run w)) p = files w p)
  /\ exists warning,
       (warning = [] \/ warning = ["Could not find header row"])
       /\ stdout (snd (run w))
          = stdout w ++ main_opening (clock w (ticks w)) ++ warning
            ++ main_closing ps.
Proof.
  intros [Hurl Hne] Hps. destruct w as [net clk tck out fs].
  cbn [urlopen] in Hurl. rewrite run_unfold. cbv zeta. rewrite Hurl.
  apply truthy_true in Hne. rewrite Hne.
  rewrite parse_clearance_csv_eq in Hps |- *.
  destruct (Csv.reader content) as [rows | e]; [| discriminate Hps].
  destruct (parse_rows rows) as [ps' |]; cbn [fst] in Hps;
    injection Hps as <-; cbn [fst snd urlopen clock ticks stdout files].
  - split; [reflexivity |]. split; [now rewrite String.eqb_refl |].
    split.
    + intros p Hp. apply String.eqb_neq in Hp. now rewrite Hp.
    + exists []. split; [now left |].
      unfold main_opening, main_closing. cbn [app].
      rewrite <- !app_assoc. reflexivity.
  - split; [reflexivity |]. split; [now rewrite String.eqb_refl |].
    split.
    + intros p Hp. apply String.eqb_neq in Hp. now rewrite Hp.
    + exists ["Could not find header row"]. split; [now right |].
      unfold main_opening, main_closing. cbn [app].
      rewrite <- !app_assoc. reflexivity.
Qed.

Lemma run_writes_parsed_products_witness :
  fetched sample_world sample_csv
  /\ fst (parse_clearance_csv sample_csv sample_world) = Ok sample_products
  /\ fst (run sample_world) = 0
  /\ files (snd (run sample_world)) output_path
     = Some (document_of (clock sample_world 1) (clock sample_world 2)
               sample_products).
Proof.
  assert (fetched sample_world sample_csv) as Hf
    by (split; [reflexivity | discriminate]).
  assert (fst (parse_clearance_csv sample_csv sample_world)
          = Ok sample_products) as Hp by (vm_compute; reflexivity).
  split; [exact Hf |]. split; [exact Hp |].
  destruct (run_writes_parsed_products sample_world sample_csv
              sample_products Hf Hp) as [H0 [Hdoc _]].
  split; [exact H0 | exact Hdoc].
Defined.

(** X18. The run ends with status 0 or 1.  It is 0 exactly when the fetch
    gave a non-empty text that the CSV reader accepts; the document then
    written has a count equal to the number of its products.  It is 1 in
    every other case (failed fetch, empty text, reader error), and then no
    file is written or changed: an earlier output stays as it was. *)
Theorem run_status_and_files (w : World) :
  (fst (run w) = 0 \/ fst (run w) = 1)
  /\ (fst (run w) = 0
      <-> exists content rows,
            fetched w content /\ Csv.reader content = Ok rows)
  /\ (fst (run w) = 1 -> forall p, files (snd (run w)) p = files w p)
  /\ (fst (run w) = 0 ->
      exists doc,
        files (snd (run w)) output_path = Some doc
        /\ clearance_count doc
           = Z.of_nat (List.length (clearance_products doc))).
Proof.
  destruct w as [net clk tck out fs]. unfold fetched. cbn [urlopen].
  rewrite run_unfold. cbv zeta.
  destruct (net (export_url SHEET_ID GID)) as [content | e].
  - destruct (Py.truthy content) eqn:Ht.
    + rewrite parse_clearance_csv_eq.
      destruct (Csv.reader content) as [rows | e] eqn:Hr.
      * assert (exists content0 rows0,
                   (inl content = inl content0 :> string + string
                    /\ content0 <> EmptyString)
                   /\ Csv.reader content0 = Ok rows0) as Hex.
        { exists content, rows. apply truthy_true in Ht. now repeat split. }
        destruct (parse_rows rows) as [ps |];
          cbn [fst snd urlopen clock ticks stdout files];
          (split; [now left |]); (split; [now split |]);
          (split; [discriminate |]); intros _; eexists;
          (split; [now rewrite String.eqb_refl | reflexivity]).
      * cbn [fst snd files]. split; [now right |]. split.
        -- split; [discriminate |].
           intros [content0 [rows0 [[Hc _] Hr0]]].
           injection Hc as <-. congruence.
        -- split; [reflexivity | discriminate].
    + cbn [fst snd files]. split; [now right |]. split.
      * split; [discriminate |].
        intros [content0 [rows0 [[Hc Hne] _]]].
        injection Hc as <-. apply truthy_true in Hne. congruence.
      * split; [reflexivity | discriminate].
  - cbn [fst snd files]. split; [now right |]. split.
    + split; [discriminate |].
      intros [content0 [rows0 [[Hc _] _]]]. discriminate Hc.
    + split; [reflexivity | discriminate].
Qed.

(** X19. Every emitted product is read from the columns of one row, each
    field from its own column: [sku], [description], [wattage] and [notes]
    are the trimmed cells 1, 2, 3 and 10, and the six quantities are the
    coerced cells 4 to 9.  In particular [total] is the cell of column 9,
    never the sum of the five locations. *)
Theorem fields_follow_columns (content : string) (w w' : World)
    (ps : list Product) (p : Product) :
  parse_clearance_csv content w = (Ok ps, w') -> In p ps ->
  exists rows row,
    Csv.reader content = Ok rows /\ In row rows
    /\ sku p = Py.strip (cell row 1)
    /\ description p = text_of_column row 2
    /\ wattage p = text_of_column row 3
    /\ notes p = text_of_column row 10
    /\ quantities p = map (quantity_of_column row) quantity_columns.
Proof.
  intros H Hin.
  destruct (parse_clearance_csv_emitted _ _ _ _ _ H Hin)
    as [rows [row [Hr [Hrow [cat [sub [_ [_ ->]]]]]]]].
  exists rows, row. now repeat split.
Qed.

Lemma fields_follow_columns_witness :
  parse_clearance_csv sample_csv sample_world = (Ok sample_products, sample_world)
  /\ In sample_flood sample_products
  /\ exists row,
       In row sample_rows
       /\ quantities sample_flood = map (quantity_of_column row) quantity_columns.
Proof.
  assert (parse_clearance_csv sample_csv sample_world
          = (Ok sample_products, sample_world)) as H
    by (vm_compute; reflexivity).
  assert (In sample_flood sample_products) as Hin
    by (right; left; reflexivity).
  split; [exact H |]. split; [exact Hin |].
  destruct (fields_follow_columns sample_csv sample_world sample_world
              sample_products sample_flood H Hin)
    as [rows [row [Hr [Hrow [_ [_ [_ [_ Hq]]]]]]]].
  exists row. split; [| exact Hq].
  assert (Csv.reader sample_csv = Ok sample_rows) as Hs
    by (vm_compute; reflexivity).
  rewrite Hs in Hr. injection Hr as <-. exact Hrow.
Defined.
